(** * SQL agent: the safety gate, the executor, the history store and the
      pipeline graph, embedded from the Python sources.

    Python [str] values are modelled as [string]; one [ascii] stands for one
    code point in the range U+0000..U+00FF.  Dictionaries used as maps
    ([query_results], [metadata], the files of the memory directory) are
    [gmap]s.  Exceptions are values of type [exn] carried by [res]. *)

From Stdlib Require Import NArith ZArith Ascii String List.
From stdpp Require Import gmap strings pretty.

Local Open Scope string_scope.
Set Warnings "-register-all".
Set Default Proof Using "Type".

(** ** Python built-ins used by the sources *)

Module Py.

(** [str.isspace] on one code point (CPython's [Py_UNICODE_ISSPACE]):
    TAB..CR, FS..US, SPACE, NEL and NBSP. *)
Definition isspace (c : ascii) : bool :=
  let n := N_of_ascii c in
  ((9 <=? n) && (n <=? 13) || (28 <=? n) && (n <=? 32)
   || (n =? 133) || (n =? 160))%N.

(** [str.isupper] on one code point: A..Z and the Latin-1 capitals. *)
Definition isupper (c : ascii) : bool :=
  let n := N_of_ascii c in
  ((65 <=? n) && (n <=? 90)
   || (192 <=? n) && (n <=? 222) && negb (n =? 215))%N.

Definition lower_char (c : ascii) : ascii :=
  if isupper c then ascii_of_N (N_of_ascii c + 32) else c.

(** [s.lower()] *)
Fixpoint lower (s : string) : string :=
  match s with
  | EmptyString => EmptyString
  | String c s' => String (lower_char c) (lower s')
  end.

(** [s.lstrip()], [s.rstrip()], [s.strip()] *)
Fixpoint lstrip (s : string) : string :=
  match s with
  | EmptyString => EmptyString
  | String c s' => if isspace c then lstrip s' else s
  end.

Fixpoint rstrip (s : string) : string :=
  match s with
  | EmptyString => EmptyString
  | String c s' =>
      match rstrip s' with
      | EmptyString => if isspace c then EmptyString else String c EmptyString
      | r => String c r
      end
  end.

Definition strip (s : string) : string := rstrip (lstrip s).

(** [s.startswith(p)]; [s.endswith(p)]: [s] is [p] or its tail ends with
    [p]. *)
Definition startswith (s p : string) : bool := String.prefix p s.

Fixpoint endswith (s p : string) : bool :=
  String.eqb s p
  || match s with
     | EmptyString => false
     | String _ s' => endswith s' p
     end.

(** [s[n:]] and [s[:-n]] for a literal [n] *)
Definition slice_from (n : nat) (s : string) : string :=
  String.substring n (String.length s - n) s.

Definition slice_until_last (n : nat) (s : string) : string :=
  String.substring 0 (String.length s - n) s.

(** [s.split()]: the maximal runs of non-whitespace, in order.  [cur] is
    the token being read. *)
Fixpoint split_from (cur : string) (s : string) : list string :=
  match s with
  | EmptyString =>
      match cur with EmptyString => [] | _ => [cur] end
  | String c s' =>
      if isspace c
      then match cur with
           | EmptyString => split_from EmptyString s'
           | _ => cur :: split_from EmptyString s'
           end
      else split_from (cur ++ String c EmptyString) s'
  end.

Definition split (s : string) : list string := split_from EmptyString s.

(** [x in l] for a list of strings *)
Definition contains (x : string) (l : list string) : bool :=
  existsb (String.eqb x) l.

End Py.

(** ** agents/sql_executor.py: the safety gate *)

Module Gate.

Definition dangerous_keywords : list string :=
  [ "drop"; "delete"; "truncate"; "update"; "insert"; "alter"; "create";
    "grant"; "revoke"; "commit"; "rollback"; "begin"; "end"; "vacuum" ].

(** The [for keyword in dangerous_keywords] loop of [validate_sql]:
    [true] when an iteration reaches its [return False]. *)
Fixpoint dangerous_found (keywords : list string) (sql_lower : string) : bool :=
  match keywords with
  | [] => false
  | keyword :: rest =>
      if Py.contains keyword (Py.split sql_lower) then true
      else dangerous_found rest sql_lower
  end.

(** [SQLExecutor.validate_sql] *)
Definition validate_sql (sql_query : string) : bool :=
  let sql_lower := Py.lower sql_query in
  if dangerous_found dangerous_keywords sql_lower then false
  else if negb (Py.startswith (Py.strip sql_lower) "select") then false
  else true.

End Gate.

(** ** Values, exceptions and the outside world *)

(** The Python values that occur in result dictionaries and database rows. *)
Inductive pyval : Type :=
| VNone
| VBool (b : bool)
| VInt (z : Z)
| VStr (s : string)
| VList (l : list pyval)
| VDict (d : list (string * pyval)).

(** The exception classes the sources distinguish in their [except] clauses. *)
Inductive exn_class : Type :=
| KeyError | TypeError | OSError | JSONDecodeError | UnicodeDecodeError
| AttributeError | SQLAlchemyError | OtherError.

(** An exception: its class and [str(e)]. *)
Record exn : Type := Exn { exn_cls : exn_class; exn_str : string }.

Inductive res (A : Type) : Type :=
| Ok (a : A)
| Raise (e : exn).
Arguments Ok {A} a.
Arguments Raise {A} e.

(** Persisted interaction record and user memory document
    (agents/memory_manager.py). [conversations = None] is a document without
    the ["conversations"] key. *)
Record results_summary : Type := ResultsSummary {
  rs_success : pyval;
  rs_row_count : pyval;
  rs_error : pyval
}.

Record interaction : Type := Interaction {
  i_timestamp : string;
  i_question : string;
  i_sql_query : string;
  i_results_summary : results_summary;
  i_response : string
}.

Record memory_doc : Type := MemoryDoc {
  conversations : option (list interaction);
  preferences : list (string * pyval);
  last_updated : string
}.

(** What lies at a path of the file system, as reading it shows: a file
    that [open(path, "r")] refuses, raising [e], and that stays so whatever
    is written to it; a file whose bytes are no text, so that decoding it
    raises [e], a [UnicodeDecodeError]; a text that is not JSON; or a JSON
    document. *)
Inductive file : Type :=
| Locked (e : exn)
| Undecodable (e : exn)
| Garbled
| Json (doc : memory_doc).

(** What the relational store has been asked to do. *)
Inductive db_event : Type :=
| SessionOpened
| Executed (sql_query : string)
| SessionClosed.

Record World : Type := MkWorld {
  fs : gmap string file;
  db_log : list db_event
}.

(** Answer of [session.execute(...)] followed by [fetchall()]. *)
Inductive db_result : Type :=
| DbRows (keys : list string) (rows : list (list pyval))
| DbRaise (e : exn).

(** The external collaborators of the program. *)
Record Collaborators : Type := MkCollaborators {
  memory_dir : string;
  (** [datetime.now().isoformat()], three readings of the clock: what it
      says when [create_empty_memory] reads it, when [add_interaction]
      reads it for the timestamp of the interaction, and when
      [add_interaction] reads it again for [last_updated] *)
  now_created : string;
  now_timestamp : string;
  now_updated : string;
  (** retrieval of context documents followed by [chain.invoke] of the
      generator, on a question *)
  generator_chain : string -> res string;
  (** [chain.invoke] of the formatter, on question, query and results text *)
  formatter_chain : string -> string -> string -> res string;
  (** [next(get_db_session())]: the exception it raises, if any *)
  session_failure : option exn;
  (** the store's answer to a query *)
  db_execute : string -> db_result;
  (** [repr] of lists and dictionaries *)
  py_repr : pyval -> string;
  (** [open(path, "w")]: the exception it raises, if any (a directory that
      is missing, a path that is a directory, a permission that is not
      given) *)
  open_w_failure : string -> option exn;
  (** pandas: the records [to_dict(orient="records")] makes of the rows of
      a data frame once its columns are named by the keys, or the exception
      that naming the columns or the conversion raises *)
  df_records : list string -> list (list pyval) -> res (list pyval)
}.

(** Computations of the collaborators: they read and change the world and
    may raise. *)
Definition M (A : Type) : Type := World -> res A * World.

Definition ret {A} (a : A) : M A := fun w => (Ok a, w).
Definition raise {A} (e : exn) : M A := fun w => (Raise e, w).
Definition bind {A B} (m : M A) (k : A -> M B) : M B :=
  fun w => match m w with
           | (Ok a, w') => k a w'
           | (Raise e, w') => (Raise e, w')
           end.
(** [try: m  finally: h] *)
Definition finally {A} (m : M A) (h : World -> World) : M A :=
  fun w => let '(r, w') := m w in (r, h w').
Definition lift {A} (r : res A) : M A := fun w => (r, w).

Declare Scope py_scope.
Delimit Scope py_scope with py.
Notation "'let*' x ':=' m 'in' k" := (bind m (fun x => k))
  (at level 10, x binder, k at level 200) : py_scope.

(** [d[k]] on a dictionary: [KeyError(k)] when absent; [str] of it is the
    quoted key. *)
Definition getitem (d : gmap string pyval) (k : string) : res pyval :=
  match d !! k with
  | Some v => Ok v
  | None => Raise (Exn KeyError ("'" ++ k ++ "'"))
  end.

(** [d.get(k, None)] *)
Definition get_or_none (d : gmap string pyval) (k : string) : pyval :=
  match d !! k with
  | Some v => v
  | None => VNone
  end.

(** Truth value of a Python value. *)
Definition truthy (v : pyval) : bool :=
  match v with
  | VNone => false
  | VBool b => b
  | VInt z => negb (z =? 0)%Z
  | VStr s => negb (String.eqb s "")
  | VList l => match l with [] => false | _ => true end
  | VDict d => match d with [] => false | _ => true end
  end.

(** [v == 0] *)
Definition eq_zero (v : pyval) : bool :=
  match v with
  | VInt z => (z =? 0)%Z
  | VBool b => negb b
  | _ => false
  end.

(** ** agents/sql_executor.py: execution *)

Module SQLExecutor.
Section WithCollaborators.
Variable env : Collaborators.

Local Open Scope py_scope.

Definition validate_sql := Gate.validate_sql.

(** The dictionary returned on every failure path. *)
Definition failure_result (error_msg : string) : gmap string pyval :=
  <["success" := VBool false]>
    (<["error" := VStr error_msg]>
       (<["data" := VNone]>
          (<["columns" := VNone]>
             (<["row_count" := VInt 0]> ∅)))).

Definition success_result (data : list pyval) (columns : list string)
    (row_count : nat) : gmap string pyval :=
  <["success" := VBool true]>
    (<["data" := VList data]>
       (<["columns" := VList (map VStr columns)]>
          (<["row_count" := VInt (Z.of_nat row_count)]> ∅))).

(** [pd.DataFrame(rows).empty]: no rows, or rows without columns. *)
Definition df_empty (rows : list (list pyval)) : bool :=
  forallb (fun r => match r with [] => true | _ => false end) rows.

(** The dictionary of the two [except] clauses. *)
Definition exception_result (e : exn) : gmap string pyval :=
  match exn_cls e with
  | SQLAlchemyError => failure_result ("Database error: " ++ exn_str e)
  | _ => failure_result ("Unexpected error: " ++ exn_str e)
  end.

Definition log_db (ev : db_event) : M unit :=
  fun w => (Ok tt, MkWorld (fs w) (db_log w ++ [ev])%list).

(** [session = next(get_db_session())] *)
Definition get_db_session : M unit :=
  match session_failure env with
  | Some e => raise e
  | None => log_db SessionOpened
  end.

Definition session_close (w : World) : World :=
  MkWorld (fs w) (db_log w ++ [SessionClosed])%list.

(** The [try] block of [execute_sql] with its two [except] clauses. *)
Definition run_query (sql_query : string) : M (gmap string pyval) :=
  let* _ := log_db (Executed sql_query) in
  match db_execute env sql_query with
  | DbRows keys rows =>
      if df_empty rows then ret (success_result [] keys 0)
      else
        match df_records env keys rows with
        | Ok records => ret (success_result records keys (length records))
        | Raise e => ret (exception_result e)
        end
  | DbRaise e => ret (exception_result e)
  end.

(** [SQLExecutor.execute_sql] *)
Definition execute_sql (sql_query : string) : M (gmap string pyval) :=
  if negb (validate_sql sql_query) then
    let error_msg := "SQL query failed validation" in
    ret (failure_result error_msg)
  else
    let* _ := get_db_session in
    finally (run_query sql_query) session_close.

End WithCollaborators.
End SQLExecutor.

(** ** agents/memory_manager.py *)

(** [os.path.join(a, b)] on a POSIX system. *)
Definition os_path_join (a b : string) : string :=
  if Py.startswith b "/" then b
  else if String.eqb a "" || Py.endswith a "/" then a ++ b
  else a ++ "/" ++ b.

(** [l[-limit:]] for an integer [limit]: the last [limit] items when
    [limit] is positive, and [l] without its first [-limit] items
    otherwise, which is all of [l] when [limit] is 0. *)
Definition last_items {A} (limit : Z) (l : list A) : list A :=
  if (0 <? limit)%Z then drop (length l - Z.to_nat limit) l
  else drop (Z.to_nat (- limit)) l.

Module MemoryManager.
Section WithCollaborators.
Variable env : Collaborators.

Local Open Scope py_scope.

Definition get_user_memory_path (user_id : string) : string :=
  os_path_join (memory_dir env) (user_id ++ ".json").

Definition create_empty_memory : memory_doc :=
  MemoryDoc (Some []) [] (now_created env).

(** [load_memory]: only [json.JSONDecodeError] is caught. *)
Definition load_memory (user_id : string) : M memory_doc :=
  fun w =>
    let memory_path := get_user_memory_path user_id in
    match fs w !! memory_path with
    | Some (Json doc) => (Ok doc, w)
    | Some Garbled => (Ok create_empty_memory, w)
    | Some (Locked e) => (Raise e, w)
    | Some (Undecodable e) => (Raise e, w)
    | None => (Ok create_empty_memory, w)
    end.

(** [save_memory]: every exception of the write is caught and logged.
    When [open] lets the file be written, the document is what is read
    there afterwards, unless the file cannot be read at all. *)
Definition save_memory (user_id : string) (memory : memory_doc) : M unit :=
  fun w =>
    let memory_path := get_user_memory_path user_id in
    match open_w_failure env memory_path with
    | Some _ => (Ok tt, w)
    | None =>
        match fs w !! memory_path with
        | Some (Locked _) => (Ok tt, w)
        | _ =>
            (Ok tt,
             MkWorld (<[memory_path := Json memory]> (fs w)) (db_log w))
        end
    end.

(** [memory["conversations"]] *)
Definition get_conversations (memory : memory_doc) : res (list interaction) :=
  match conversations memory with
  | Some l => Ok l
  | None => Raise (Exn KeyError "'conversations'")
  end.

Definition add_interaction (user_id question sql_query : string)
    (results : gmap string pyval) (response : string) : M unit :=
  let* memory := load_memory user_id in
  let timestamp := now_timestamp env in
  let* success := lift (getitem results "success") in
  let* row_count := lift (getitem results "row_count") in
  let interaction :=
    Interaction timestamp question sql_query
      (ResultsSummary success row_count (get_or_none results "error"))
      response in
  let* convs := lift (get_conversations memory) in
  let memory :=
    MemoryDoc (Some (convs ++ [interaction])%list) (preferences memory)
              (now_updated env) in
  save_memory user_id memory.

Definition get_recent_interactions (user_id : string) (limit : Z)
    : M (list interaction) :=
  let* memory := load_memory user_id in
  let* convs := lift (get_conversations memory) in
  ret (match convs with
       | [] => []
       | _ => last_items limit convs
       end).

End WithCollaborators.
End MemoryManager.

(** ** agents/sql_generator.py *)

Module SQLGenerator.
Section WithCollaborators.
Variable env : Collaborators.

(** [generate_sql]: the chain's answer without its code fence; an
    exception of the chain is logged and raised again. *)
Definition generate_sql (question : string) : res string :=
  match generator_chain env question with
  | Ok sql_query =>
      let sql_query := Py.strip sql_query in
      let sql_query :=
        if Py.startswith sql_query "```sql" then Py.slice_from 6 sql_query
        else sql_query in
      let sql_query :=
        if Py.endswith sql_query "```" then Py.slice_until_last 3 sql_query
        else sql_query in
      Ok (Py.strip sql_query)
  | Raise e => Raise e
  end.

End WithCollaborators.
End SQLGenerator.

(** ** agents/response_formatter.py *)

Definition newline : string := String (ascii_of_N 10) EmptyString.

Module ResponseFormatter.
Section WithCollaborators.
Variable env : Collaborators.

(** [str(v)] as an f-string inserts it. *)
Definition py_str (v : pyval) : string :=
  match v with
  | VStr s => s
  | VNone => "None"
  | VBool true => "True"
  | VBool false => "False"
  | VInt z => pretty z
  | _ => py_repr env v
  end.

(** [type(v).__name__] *)
Definition type_name (v : pyval) : string :=
  match v with
  | VNone => "NoneType"
  | VBool _ => "bool"
  | VInt _ => "int"
  | VStr _ => "str"
  | VList _ => "list"
  | VDict _ => "dict"
  end.

(** The items a [for] loop over [v] visits. *)
Definition iterate (v : pyval) : res (list pyval) :=
  match v with
  | VList l => Ok l
  | VDict d => Ok (map (fun kv => VStr (fst kv)) d)
  | VStr s => Ok (map (fun c => VStr (String c EmptyString)) (list_ascii_of_string s))
  | _ => Raise (Exn TypeError ("'" ++ type_name v ++ "' object is not iterable"))
  end.

Fixpoint rows_text (i : nat) (rows : list pyval) : string :=
  match rows with
  | [] => ""
  | row :: rest =>
      "Row " ++ pretty (i + 1)%nat ++ ": " ++ py_str row ++ newline
      ++ rows_text (S i) rest
  end.

(** The text of the results handed to the chain. *)
Definition results_text (results : gmap string pyval) : res string :=
  match getitem results "success" with
  | Raise e => Raise e
  | Ok success =>
      if truthy success then
        match getitem results "row_count" with
        | Raise e => Raise e
        | Ok row_count =>
            if eq_zero row_count then Ok "No results found."
            else
              match getitem results "data" with
              | Raise e => Raise e
              | Ok data =>
                  match iterate data with
                  | Raise e => Raise e
                  | Ok rows => Ok ("Results:" ++ newline ++ rows_text 0 rows)
                  end
              end
        end
      else
        match getitem results "error" with
        | Raise e => Raise e
        | Ok error => Ok ("Error: " ++ py_str error)
        end
  end.

(** The [except] clause of [format_response]. *)
Definition fallback (results : gmap string pyval) : res string :=
  match getitem results "success" with
  | Raise e => Raise e
  | Ok success =>
      if truthy success then
        match getitem results "row_count" with
        | Raise e => Raise e
        | Ok row_count =>
            if eq_zero row_count
            then Ok "No results were found that match your query."
            else
              match getitem results "data" with
              | Raise e => Raise e
              | Ok data =>
                  Ok ("Found " ++ py_str row_count
                      ++ " results. Here's the data: " ++ py_str data)
              end
        end
      else
        match getitem results "error" with
        | Raise e => Raise e
        | Ok error =>
            Ok ("There was an error processing your query: " ++ py_str error)
        end
  end.

Definition format_response (question sql_query : string)
    (results : gmap string pyval) : res string :=
  match results_text results with
  | Raise e => Raise e
  | Ok results_str =>
      match formatter_chain env question sql_query results_str with
      | Ok response => Ok response
      | Raise _ => fallback results
      end
  end.

End WithCollaborators.
End ResponseFormatter.

(** ** agents/mcp.py: the context object *)

Record ErrorEntry : Type := MkError {
  agent : string;
  message : string;
  type : string
}.

Record Context : Type := MkContext {
  user_id : string;
  question : string;
  sql_query : string;
  is_query_validated : bool;
  query_results : gmap string pyval;
  response : string;
  conversation_history : list interaction;
  errors : list ErrorEntry;
  metadata : gmap string pyval
}.

(** [Context(user_id=..., question=...)]: every other field at its default. *)
Definition new_context (user_id question : string) : Context :=
  MkContext user_id question "" false ∅ "" [] [] ∅.

Definition set_sql_query (v : string) (c : Context) : Context :=
  MkContext (user_id c) (question c) v (is_query_validated c)
            (query_results c) (response c) (conversation_history c)
            (errors c) (metadata c).

Definition set_is_query_validated (v : bool) (c : Context) : Context :=
  MkContext (user_id c) (question c) (sql_query c) v
            (query_results c) (response c) (conversation_history c)
            (errors c) (metadata c).

Definition set_query_results (v : gmap string pyval) (c : Context) : Context :=
  MkContext (user_id c) (question c) (sql_query c) (is_query_validated c)
            v (response c) (conversation_history c)
            (errors c) (metadata c).

Definition set_response (v : string) (c : Context) : Context :=
  MkContext (user_id c) (question c) (sql_query c) (is_query_validated c)
            (query_results c) v (conversation_history c)
            (errors c) (metadata c).

Definition set_conversation_history (v : list interaction) (c : Context)
    : Context :=
  MkContext (user_id c) (question c) (sql_query c) (is_query_validated c)
            (query_results c) (response c) v
            (errors c) (metadata c).

(** [Context.add_error]: appends to [errors]. *)
Definition add_error (agent_name error_message error_type : string)
    (c : Context) : Context :=
  MkContext (user_id c) (question c) (sql_query c) (is_query_validated c)
            (query_results c) (response c) (conversation_history c)
            (errors c ++ [MkError agent_name error_message error_type])
            (metadata c).

(** [Context.has_errors] *)
Definition has_errors (c : Context) : bool :=
  (0 <? length (errors c))%nat.

(** [Context.get_last_error] *)
Definition get_last_error (c : Context) : option ErrorEntry :=
  last (errors c).

(** [Context.update_metadata] *)
Definition update_metadata (key : string) (value : pyval) (c : Context)
    : Context :=
  MkContext (user_id c) (question c) (sql_query c) (is_query_validated c)
            (query_results c) (response c) (conversation_history c)
            (errors c) (<[key := value]> (metadata c)).

(** ** flow.py: the stages *)

(** A stage receives the context and the world and hands both on. *)
Definition Stage : Type := Context -> World -> Context * World.

Module Flow.
Section WithCollaborators.
Variable env : Collaborators.

Definition load_context : Stage := fun context w =>
  match MemoryManager.get_recent_interactions env (user_id context) 5%Z w with
  | (Ok recent_interactions, w') =>
      let context := set_conversation_history recent_interactions context in
      let context := update_metadata "context_loaded" (VBool true) context in
      let context :=
        update_metadata "history_length"
          (VInt (Z.of_nat (length recent_interactions))) context in
      (context, w')
  | (Raise e, w') =>
      let error_msg := "Error loading context: " ++ exn_str e in
      (add_error "load_context" error_msg "general" context, w')
  end.

Definition generate_sql : Stage := fun context w =>
  match SQLGenerator.generate_sql env (question context) with
  | Ok sql_query => (set_sql_query sql_query context, w)
  | Raise e =>
      let error_msg := "Error generating SQL: " ++ exn_str e in
      (add_error "generate_sql" error_msg "general" context, w)
  end.

(** The [except] clause of [execute_sql]. *)
Definition execute_sql_failed (e : exn) (context : Context) : Context :=
  let error_msg := "Error executing SQL: " ++ exn_str e in
  add_error "execute_sql" error_msg "general" context.

Definition execute_sql : Stage := fun context w =>
  match SQLExecutor.execute_sql env (sql_query context) w with
  | (Ok results, w') =>
      let context := set_query_results results context in
      match getitem results "success" with
      | Ok success =>
          let context := set_is_query_validated (truthy success) context in
          if truthy success then (context, w')
          else
            match getitem results "error" with
            | Ok error =>
                let error_msg :=
                  "Query execution failed: "
                  ++ ResponseFormatter.py_str env error in
                (add_error "execute_sql" error_msg "database_error" context,
                 w')
            | Raise e => (execute_sql_failed e context, w')
            end
      | Raise e => (execute_sql_failed e context, w')
      end
  | (Raise e, w') => (execute_sql_failed e context, w')
  end.

Definition format_response : Stage := fun context w =>
  if has_errors context then
    let last_error := get_last_error context in
    let error_msg :=
      match last_error with
      | Some e => message e
      | None => "An unknown error occurred"
      end in
    (set_response ("I'm sorry, but I encountered an error: " ++ error_msg)
                  context, w)
  else
    match ResponseFormatter.format_response env (question context)
            (sql_query context) (query_results context) with
    | Ok response => (set_response response context, w)
    | Raise e =>
        let error_msg := "Error formatting response: " ++ exn_str e in
        let context := add_error "format_response" error_msg "general" context in
        (set_response
           "I'm sorry, but I encountered an error while formatting the response."
           context, w)
    end.

Definition save_memory : Stage := fun context w =>
  match MemoryManager.add_interaction env (user_id context)
          (question context) (sql_query context) (query_results context)
          (response context) w with
  | (Ok _, w') => (context, w')
  | (Raise e, w') =>
      let error_msg := "Error saving memory: " ++ exn_str e in
      (add_error "save_memory" error_msg "general" context, w')
  end.

Definition check_for_errors (context : Context) : string :=
  if has_errors context then "error" else "success".

End WithCollaborators.
End Flow.

(** ** The graph library used by flow.py

    [StateGraph] belongs to the langgraph library.  It is the builder of a
    graph: its methods [add_node], [add_edge], [add_conditional_edges] and
    [set_entry_point] fill the lists below.  Running a graph is the business
    of the compiled graph that the builder's [compile] returns; the builder
    itself has no method [invoke]. *)

Module LangGraph.

Definition END : string := "__end__".

Record StateGraph : Type := MkGraph {
  nodes : list (string * Stage);
  edges : list (string * string);
  branches : list (string * (Context -> string) * list (string * string));
  entry_point : option string
}.

Definition empty_graph : StateGraph := MkGraph [] [] [] None.

Definition add_node (name : string) (action : Stage) (g : StateGraph)
    : StateGraph :=
  MkGraph (nodes g ++ [(name, action)]) (edges g) (branches g) (entry_point g).

Definition add_edge (start_key end_key : string) (g : StateGraph)
    : StateGraph :=
  MkGraph (nodes g) (edges g ++ [(start_key, end_key)]) (branches g)
          (entry_point g).

Definition add_conditional_edges (source : string) (path : Context -> string)
    (path_map : list (string * string)) (g : StateGraph) : StateGraph :=
  MkGraph (nodes g) (edges g) (branches g ++ [(source, path, path_map)])
          (entry_point g).

Definition set_entry_point (key : string) (g : StateGraph) : StateGraph :=
  MkGraph (nodes g) (edges g) (branches g) (Some key).

(** [graph.invoke(context)] where [graph] is a [StateGraph]: the lookup of
    the attribute raises, and nothing of the graph is run. *)
Definition invoke (g : StateGraph) (c : Context) : M Context :=
  raise (Exn AttributeError "'StateGraph' object has no attribute 'invoke'").

End LangGraph.

(** ** flow.py: the graph and the entry point *)

(** The dictionary [process_question] returns. *)
Record Answer : Type := MkAnswer {
  answer_question : string;
  answer_sql_query : string;
  answer_response : string;
  answer_success : bool;
  answer_errors : list ErrorEntry
}.

Module SQLAgentGraph.
Section WithCollaborators.
Variable env : Collaborators.

Import LangGraph.
Local Open Scope py_scope.

(** [build_graph]: the five nodes, the five edges, the two conditional
    edges and the entry point, in the order of the source. *)
Definition build_graph : StateGraph :=
  let graph := empty_graph in
  let graph := add_node "load_context" (Flow.load_context env) graph in
  let graph := add_node "generate_sql" (Flow.generate_sql env) graph in
  let graph := add_node "execute_sql" (Flow.execute_sql env) graph in
  let graph := add_node "format_response" (Flow.format_response env) graph in
  let graph := add_node "save_memory" (Flow.save_memory env) graph in
  let graph := add_edge "load_context" "generate_sql" graph in
  let graph := add_edge "generate_sql" "execute_sql" graph in
  let graph := add_edge "execute_sql" "format_response" graph in
  let graph := add_edge "format_response" "save_memory" graph in
  let graph := add_edge "save_memory" END graph in
  let graph :=
    add_conditional_edges "generate_sql" Flow.check_for_errors
      [("error", "format_response"); ("success", "execute_sql")] graph in
  let graph :=
    add_conditional_edges "execute_sql" Flow.check_for_errors
      [("error", "format_response"); ("success", "format_response")] graph in
  let graph := set_entry_point "load_context" graph in
  graph.

(** [__init__] keeps what [build_graph] returns: the builder, which it
    does not compile. *)
Definition graph : StateGraph := build_graph.

(** The dictionary that [process_question] makes of the final context. *)
Definition result_of (question : string) (final_context : Context) : Answer :=
  MkAnswer question (sql_query final_context) (response final_context)
           (negb (has_errors final_context)) (errors final_context).

(** [process_question]: a fresh context handed to [self.graph.invoke]. *)
Definition process_question (user_id question : string) : M Answer :=
  let context := new_context user_id question in
  let* final_context := invoke graph context in
  ret (result_of question final_context).

End WithCollaborators.
End SQLAgentGraph.

(** ** Further functions of the sources *)

(** [Context.get_metadata] (agents/mcp.py) *)
Definition get_metadata (key : string) (default : pyval) (c : Context)
    : pyval :=
  match metadata c !! key with
  | Some v => v
  | None => default
  end.

(** [SQLExecutor.format_results] (agents/sql_executor.py).  The two
    renderings of a data frame, [to_string(index=False)] and
    [to_html(index=False)], are those of the pandas library. *)
Module ResultsFormat.
Section WithCollaborators.
Variable env : Collaborators.
Variable df_to_string df_to_html : pyval -> string.

Definition format_results (results : gmap string pyval)
    (format_type : string) : res string :=
  match getitem results "success" with
  | Raise e => Raise e
  | Ok success =>
      if negb (truthy success) then
        match getitem results "error" with
        | Raise e => Raise e
        | Ok error => Ok ("Error: " ++ ResponseFormatter.py_str env error)
        end
      else
        match getitem results "row_count" with
        | Raise e => Raise e
        | Ok row_count =>
            if eq_zero row_count then Ok "No results found."
            else
              match getitem results "data" with
              | Raise e => Raise e
              | Ok data =>
                  if String.eqb format_type "text" then Ok (df_to_string data)
                  else if String.eqb format_type "html"
                       then Ok (df_to_html data)
                       else Ok (ResponseFormatter.py_str env data)
              end
        end
  end.

End WithCollaborators.
End ResultsFormat.

(** [MemoryManager.get_context_for_question] (agents/memory_manager.py) *)
Module MemoryContext.
Section WithCollaborators.
Variable env : Collaborators.

Local Open Scope py_scope.

(** The body of the loop over [enumerate(recent_interactions)]. *)
Fixpoint interactions_text (i : nat) (recent : list interaction) : string :=
  match recent with
  | [] => ""
  | x :: rest =>
      "Interaction " ++ pretty (i + 1)%nat ++ ":" ++ newline
      ++ "Question: " ++ i_question x ++ newline
      ++ "Response: " ++ i_response x ++ newline ++ newline
      ++ interactions_text (S i) rest
  end.

Definition get_context_for_question (user_id question : string) : M string :=
  let* recent_interactions :=
    MemoryManager.get_recent_interactions env user_id 5%Z in
  match recent_interactions with
  | [] => ret "No previous interactions found."
  | _ =>
      ret ("Previous interactions:" ++ newline
           ++ interactions_text 0 recent_interactions)
  end.

End WithCollaborators.
End MemoryContext.

(** [RAGRetriever] (agents/rag_retriever.py): retrieval and the text built
    from the retrieved documents.  A document is its [page_content]; the
    vector store, when there is one, is its [similarity_search]. *)
Module RAGRetriever.

Definition retrieve_relevant_documents
    (vector_store : option (string -> nat -> res (list string)))
    (question : string) (k : nat) : list string :=
  match vector_store with
  | None => []
  | Some similarity_search =>
      match similarity_search question k with
      | Ok docs => docs
      | Raise _ => []
      end
  end.

Fixpoint documents_text (i : nat) (docs : list string) : string :=
  match docs with
  | [] => ""
  | page_content :: rest =>
      "Document " ++ pretty (i + 1)%nat ++ ":" ++ newline
      ++ page_content ++ newline ++ newline
      ++ documents_text (S i) rest
  end.

Definition get_context_from_documents (docs : list string) : string :=
  match docs with
  | [] => ""
  | _ =>
      "Relevant Database Information:" ++ newline ++ newline
      ++ documents_text 0 docs
  end.

End RAGRetriever.

(** ** Notions the properties are stated with *)

(** A string of whitespace only. *)
Fixpoint blank (s : string) : bool :=
  match s with
  | EmptyString => true
  | String c s' => Py.isspace c && blank s'
  end.

(** The first and the last character of a string, if any. *)
Definition first_char (s : string) : option ascii :=
  match s with
  | EmptyString => None
  | String c _ => Some c
  end.

Fixpoint last_char (s : string) : option ascii :=
  match s with
  | EmptyString => None
  | String c EmptyString => Some c
  | String _ s' => last_char s'
  end.

(** A string that neither starts nor ends with whitespace. *)
Definition trimmed (s : string) : bool :=
  match first_char s, last_char s with
  | Some a, Some b => negb (Py.isspace a) && negb (Py.isspace b)
  | _, _ => true
  end.

(** What the store may be asked: a query only if the gate accepts it. *)
Definition allowed_event (ev : db_event) : bool :=
  match ev with
  | Executed sql_query => Gate.validate_sql sql_query
  | _ => true
  end.


(** Resolution of a POSIX path without symbolic links, as
    [os.path.normpath] does it. *)
Module Path.

(** The pieces of [p] between its slashes; [cur] is the piece being read. *)
Fixpoint components_from (cur : string) (p : string) : list string :=
  match p with
  | EmptyString => [cur]
  | String c p' =>
      if Ascii.eqb c "/" then cur :: components_from EmptyString p'
      else components_from (cur ++ String c EmptyString) p'
  end.

Definition components (p : string) : list string :=
  components_from EmptyString p.

Definition is_absolute (p : string) : bool := Py.startswith p "/".

(** One component applied to the directories resolved so far. *)
Definition enter (absolute : bool) (stack : list string) (comp : string)
    : list string :=
  if String.eqb comp "" || String.eqb comp "." then stack
  else if String.eqb comp ".." then
    match last stack with
    | None => if absolute then stack else [".."]
    | Some top =>
        if String.eqb top ".." then (stack ++ [".."])%list
        else removelast stack
    end
  else (stack ++ [comp])%list.

Definition resolve (absolute : bool) (comps : list string) : list string :=
  fold_left (enter absolute) comps [].

Definition location (p : string) : bool * list string :=
  (is_absolute p, resolve (is_absolute p) (components p)).

Fixpoint is_proper_prefix (l1 l2 : list string) : bool :=
  match l1, l2 with
  | [], _ :: _ => true
  | x :: l1', y :: l2' => String.eqb x y && is_proper_prefix l1' l2'
  | _, _ => false
  end.

(** [p] names something below the directory [dir]: both are anchored the
    same way and the resolved [dir] is a proper prefix of the resolved
    [p]. *)
Definition inside (dir p : string) : bool :=
  Bool.eqb (is_absolute dir) (is_absolute p)
  && is_proper_prefix (snd (location dir)) (snd (location p)).

Fixpoint has_slash (s : string) : bool :=
  match s with
  | EmptyString => false
  | String c s' => Ascii.eqb c "/" || has_slash s'
  end.

End Path.

(** [c'] carries on from [c]: the same user and question, and the errors of
    [c] with, possibly, more after them. *)
Definition carries_on (c c' : Context) : Prop :=
  user_id c' = user_id c /\ question c' = question c
  /\ exists later, errors c' = (errors c ++ later)%list.

(** A string without whitespace. *)
Fixpoint solid (s : string) : bool :=
  match s with
  | EmptyString => true
  | String c s' => negb (Py.isspace c) && solid s'
  end.

(** [pre] is empty or ends with whitespace; [post] is empty or starts with
    whitespace. *)
Definition ends_blank (pre : string) : Prop :=
  pre = "" \/ exists pre' c, pre = pre' ++ String c "" /\ Py.isspace c = true.

Definition starts_blank (post : string) : Prop :=
  post = "" \/ exists c post', post = String c post' /\ Py.isspace c = true.

(** [w] occurs in [q] as a whole word: a stretch of [q] with whitespace or
    an end of [q] on either side. *)
Definition whole_word (w q : string) : Prop :=
  exists pre post, q = pre ++ w ++ post /\ ends_blank pre /\ starts_blank post.

(** An edge of the graph, conditional or not. *)
Definition graph_arrows (g : LangGraph.StateGraph) : list (string * string) :=
  (LangGraph.edges g
   ++ flat_map (fun b => match b with
                         | (source, _, path_map) =>
                             map (fun kv => (source, snd kv)) path_map
                         end)
               (LangGraph.branches g))%list.

(** Position of a node in the order the nodes were added; [END] comes
    after all of them. *)
Fixpoint rank_in (names : list string) (n : string) : nat :=
  match names with
  | [] => O
  | m :: rest => if String.eqb n m then O else S (rank_in rest n)
  end.

Definition rank (g : LangGraph.StateGraph) (n : string) : nat :=
  rank_in (map fst (LangGraph.nodes g)) n.

(** Every arrow leads to a node added later (or to [END]). *)
Definition all_forward (g : LangGraph.StateGraph) : bool :=
  forallb (fun e => (rank g (fst e) <? rank g (snd e))%nat) (graph_arrows g).

(** Running stages one after the other, each on what the one before left;
    the stages are listed with the contexts they received. *)
Fixpoint run_sequence (stages : list (string * Stage)) (c : Context)
    (w : World) : Context * World * list (string * Context) :=
  match stages with
  | [] => (c, w, [])
  | (n, action) :: rest =>
      let '(c1, w1) := action c w in
      let '(c2, w2, visited) := run_sequence rest c1 w1 in
      (c2, w2, (n, c) :: visited)
  end.

(** ** Sample collaborators and worlds *)

Definition sample_env : Collaborators :=
  MkCollaborators "memory" "2024-05-01T10:00:00.000100"
    "2024-05-01T10:00:00.000250" "2024-05-01T10:00:00.000300"
    (fun _ => Ok "SELECT nome FROM clientes")
    (fun _ _ _ => Ok "Ana is the only client.")
    None
    (fun _ => DbRows ["nome"] [[VStr "Ana"]])
    (fun _ => "[...]")
    (fun _ => None)
    (fun keys rows => Ok (map (fun r => VDict (combine keys r)) rows)).

(** The generator chain raises. *)
Definition sample_env_generator_down : Collaborators :=
  MkCollaborators "memory" "2024-05-01T10:00:00.000100"
    "2024-05-01T10:00:00.000250" "2024-05-01T10:00:00.000300"
    (fun _ => Raise (Exn OtherError "model unavailable"))
    (fun _ _ _ => Ok "Ana is the only client.")
    None
    (fun _ => DbRows ["nome"] [[VStr "Ana"]])
    (fun _ => "[...]")
    (fun _ => None)
    (fun keys rows => Ok (map (fun r => VDict (combine keys r)) rows)).

(** The session factory raises. *)
Definition sample_env_no_session : Collaborators :=
  MkCollaborators "memory" "2024-05-01T10:00:00.000100"
    "2024-05-01T10:00:00.000250" "2024-05-01T10:00:00.000300"
    (fun _ => Ok "SELECT nome FROM clientes")
    (fun _ _ _ => Ok "Ana is the only client.")
    (Some (Exn OtherError "connection refused"))
    (fun _ => DbRows ["nome"] [[VStr "Ana"]])
    (fun _ => "[...]")
    (fun _ => None)
    (fun keys rows => Ok (map (fun r => VDict (combine keys r)) rows)).

(** The store answers with no row. *)
Definition sample_env_empty_table : Collaborators :=
  MkCollaborators "memory" "2024-05-01T10:00:00.000100"
    "2024-05-01T10:00:00.000250" "2024-05-01T10:00:00.000300"
    (fun _ => Ok "SELECT nome FROM clientes WHERE saldo > 9000")
    (fun _ _ _ => Ok "No client has such a balance.")
    None
    (fun _ => DbRows ["nome"] [])
    (fun _ => "[...]")
    (fun _ => None)
    (fun keys rows => Ok (map (fun r => VDict (combine keys r)) rows)).

(** The store raises. *)
Definition sample_env_store_down : Collaborators :=
  MkCollaborators "memory" "2024-05-01T10:00:00.000100"
    "2024-05-01T10:00:00.000250" "2024-05-01T10:00:00.000300"
    (fun _ => Ok "SELECT nome FROM clientes")
    (fun _ _ _ => Ok "Ana is the only client.")
    None
    (fun _ => DbRaise (Exn SQLAlchemyError "relation clientes does not exist"))
    (fun _ => "[...]")
    (fun _ => None)
    (fun keys rows => Ok (map (fun r => VDict (combine keys r)) rows)).

(** The formatter chain raises. *)
Definition sample_env_formatter_down : Collaborators :=
  MkCollaborators "memory" "2024-05-01T10:00:00.000100"
    "2024-05-01T10:00:00.000250" "2024-05-01T10:00:00.000300"
    (fun _ => Ok "SELECT nome FROM clientes")
    (fun _ _ _ => Raise (Exn OtherError "model unavailable"))
    None
    (fun _ => DbRows ["nome"] [[VStr "Ana"]])
    (fun _ => "[{'nome': 'Ana'}]")
    (fun _ => None)
    (fun keys rows => Ok (map (fun r => VDict (combine keys r)) rows)).

(** The generator answers with a statement that is no query. *)
Definition sample_env_unsafe_query : Collaborators :=
  MkCollaborators "memory" "2024-05-01T10:00:00.000100"
    "2024-05-01T10:00:00.000250" "2024-05-01T10:00:00.000300"
    (fun _ => Ok "DELETE FROM clientes")
    (fun _ _ _ => Ok "Done.")
    None
    (fun _ => DbRows [] [])
    (fun _ => "[...]")
    (fun _ => None)
    (fun keys rows => Ok (map (fun r => VDict (combine keys r)) rows)).

(** The generator answers with a query in a fence tagged "sql", with
    whitespace around the fence and inside it. *)
Definition sample_env_fenced : Collaborators :=
  MkCollaborators "memory" "2024-05-01T10:00:00.000100"
    "2024-05-01T10:00:00.000250" "2024-05-01T10:00:00.000300"
    (fun _ => Ok (" " ++ ("```sql" ++ " SELECT 1 " ++ "```") ++ "  "))
    (fun _ _ _ => Ok "One.")
    None
    (fun _ => DbRows ["?column?"] [[VInt 1]])
    (fun _ => "[...]")
    (fun _ => None)
    (fun keys rows => Ok (map (fun r => VDict (combine keys r)) rows)).

(** The generator answers with a query in a fence without a tag. *)
Definition sample_env_plain_fence : Collaborators :=
  MkCollaborators "memory" "2024-05-01T10:00:00.000100"
    "2024-05-01T10:00:00.000250" "2024-05-01T10:00:00.000300"
    (fun _ => Ok ("```" ++ newline ++ "SELECT 1" ++ newline ++ "```"))
    (fun _ _ _ => Ok "One.")
    None
    (fun _ => DbRows ["?column?"] [[VInt 1]])
    (fun _ => "[...]")
    (fun _ => None)
    (fun keys rows => Ok (map (fun r => VDict (combine keys r)) rows)).

(** The memory directory has no directory "a": the history file of the
    user "a/b" cannot be opened for writing. *)
Definition sample_env_no_directory : Collaborators :=
  MkCollaborators "memory" "2024-05-01T10:00:00.000100"
    "2024-05-01T10:00:00.000250" "2024-05-01T10:00:00.000300"
    (fun _ => Ok "SELECT nome FROM clientes")
    (fun _ _ _ => Ok "Ana is the only client.")
    None
    (fun _ => DbRows ["nome"] [[VStr "Ana"]])
    (fun _ => "[...]")
    (fun path =>
       if String.eqb path "memory/a/b.json"
       then Some (Exn OSError
                    "[Errno 2] No such file or directory: 'memory/a/b.json'")
       else None)
    (fun keys rows => Ok (map (fun r => VDict (combine keys r)) rows)).

(** pandas raises on the rows of the store. *)
Definition sample_env_frame_fails : Collaborators :=
  MkCollaborators "memory" "2024-05-01T10:00:00.000100"
    "2024-05-01T10:00:00.000250" "2024-05-01T10:00:00.000300"
    (fun _ => Ok "SELECT nome FROM clientes")
    (fun _ _ _ => Ok "Ana is the only client.")
    None
    (fun _ => DbRows ["nome"] [[VStr "Ana"; VInt 3]])
    (fun _ => "[...]")
    (fun _ => None)
    (fun _ _ =>
       Raise (Exn OtherError
                "Length mismatch: Expected axis has 2 elements, new values have 1 elements")).

Definition empty_world : World := MkWorld ∅ [].

(** Three interactions of the user "u1", oldest first. *)
Definition sample_history : list interaction :=
  [ Interaction "2024-04-28T09:00:00" "Quantos clientes?"
      "SELECT COUNT(*) FROM clientes"
      (ResultsSummary (VBool true) (VInt 1) VNone) "There are 3 clients.";
    Interaction "2024-04-29T09:00:00" "Apaga tudo" "DELETE FROM clientes"
      (ResultsSummary (VBool false) (VInt 0)
         (VStr "SQL query failed validation"))
      "I'm sorry, but I encountered an error.";
    Interaction "2024-04-30T09:00:00" "Quem e cliente?"
      "SELECT nome FROM clientes"
      (ResultsSummary (VBool true) (VInt 1) VNone)
      "Ana is the only client." ].

(** The history file of user "u1" holds these three. *)
Definition history_world : World :=
  MkWorld (<["memory/u1.json" :=
               Json (MemoryDoc (Some sample_history) [] "2024-04-30T09:00:00")]>
             ∅)
          [].

(** The history file of user "u1" is a text that is not JSON. *)
Definition garbled_world : World :=
  MkWorld (<["memory/u1.json" := Garbled]> ∅) [].

(** The history file of user "u1" holds bytes that are no text. *)
Definition undecodable_world : World :=
  MkWorld (<["memory/u1.json" :=
               Undecodable
                 (Exn UnicodeDecodeError
                    "'utf-8' codec can't decode byte 0xff in position 0: invalid start byte")]>
             ∅)
          [].

(** The history file of user "u1" cannot be opened. *)
Definition locked_world : World :=
  MkWorld (<["memory/u1.json" := Locked (Exn OSError "Permission denied")]> ∅)
          [].

(** * Properties *)

#[local] Arguments String.append !s1 s2 : simpl nomatch.

(** ** Strings *)

Section StringFacts.

Lemma append_nil_r (s : string) : s ++ "" = s.
Proof. induction s as [|c s IH]; simpl; [reflexivity | now rewrite IH]. Qed.

Lemma append_assoc (a b c : string) : (a ++ b) ++ c = a ++ (b ++ c).
Proof. induction a as [|x a IH]; simpl; [reflexivity | now rewrite IH]. Qed.

Lemma append_snoc_ne (s : string) (c : ascii) : s ++ String c "" <> "".
Proof. destruct s; discriminate. Qed.

Lemma lower_append (a b : string) :
  Py.lower (a ++ b) = Py.lower a ++ Py.lower b.
Proof. induction a as [|x a IH]; simpl; [reflexivity | now rewrite IH]. Qed.

Lemma isspace_lower_char (c : ascii) :
  Py.isspace (Py.lower_char c) = Py.isspace c.
Proof. destruct c as [[] [] [] [] [] [] [] []]; reflexivity. Qed.

Lemma solid_lower (s : string) : solid (Py.lower s) = solid s.
Proof.
  induction s as [|c s IH]; simpl; [reflexivity|].
  now rewrite isspace_lower_char, IH.
Qed.

Lemma split_from_solid (w : string) :
  solid w = true ->
  forall cur rest, Py.split_from cur (w ++ rest) = Py.split_from (cur ++ w) rest.
Proof.
  induction w as [|c w IH]; simpl; intros Hw cur rest.
  - now rewrite append_nil_r.
  - apply andb_prop in Hw as [Hc Hw].
    apply negb_true_iff in Hc. rewrite Hc.
    rewrite (IH Hw). now rewrite append_assoc.
Qed.

Lemma split_from_after_space (pre : string) (c : ascii) (s : string) :
  Py.isspace c = true ->
  forall cur, exists l,
    Py.split_from cur (pre ++ String c s) = (l ++ Py.split_from "" s)%list.
Proof.
  intros Hc. induction pre as [|d pre IH]; simpl; intros cur.
  - rewrite Hc. destruct cur.
    + now exists [].
    + now eexists [_].
  - destruct (Py.isspace d).
    + destruct (IH "") as [l Hl]. rewrite Hl. destruct cur.
      * now exists l.
      * now eexists (_ :: l).
    + apply IH.
Qed.

Lemma split_from_token (w post : string) :
  w <> "" -> solid w = true -> starts_blank post ->
  In w (Py.split_from "" (w ++ post)).
Proof.
  intros Hne Hw Hpost. rewrite (split_from_solid w Hw). simpl.
  destruct Hpost as [-> | (c & post' & -> & Hc)]; simpl.
  - destruct w; [congruence | now left].
  - rewrite Hc. destruct w; [congruence | now left].
Qed.

(** A whole word without whitespace is one of the tokens of [split]. *)
Lemma whole_word_in_split (w q : string) :
  w <> "" -> solid w = true -> whole_word w q -> In w (Py.split q).
Proof.
  intros Hne Hw (pre & post & -> & Hpre & Hpost). unfold Py.split.
  destruct Hpre as [-> | (pre' & c & -> & Hc)].
  - simpl. now apply split_from_token.
  - rewrite append_assoc. simpl.
    destruct (split_from_after_space pre' c (w ++ post) Hc "") as [l Hl].
    rewrite Hl. apply in_or_app. right. now apply split_from_token.
Qed.

Lemma ends_blank_lower (pre : string) :
  ends_blank pre -> ends_blank (Py.lower pre).
Proof.
  intros [-> | (pre' & c & -> & Hc)]; [now left | right].
  exists (Py.lower pre'), (Py.lower_char c). rewrite lower_append. simpl.
  now rewrite isspace_lower_char.
Qed.

Lemma starts_blank_lower (post : string) :
  starts_blank post -> starts_blank (Py.lower post).
Proof.
  intros [-> | (c & post' & -> & Hc)]; [now left | right].
  exists (Py.lower_char c), (Py.lower post'). simpl.
  now rewrite isspace_lower_char.
Qed.

Lemma whole_word_lower (w q : string) :
  whole_word w q -> whole_word (Py.lower w) (Py.lower q).
Proof.
  intros (pre & post & -> & Hpre & Hpost).
  exists (Py.lower pre), (Py.lower post). rewrite !lower_append.
  auto using ends_blank_lower, starts_blank_lower.
Qed.

Lemma contains_In (x : string) (l : list string) :
  In x l -> Py.contains x l = true.
Proof.
  intros H. apply existsb_exists. exists x. split; [assumption|].
  apply String.eqb_refl.
Qed.

End StringFacts.

(** ** The safety gate *)

Lemma dangerous_found_In (keywords : list string) (kw s : string) :
  In kw keywords -> Py.contains kw (Py.split s) = true ->
  Gate.dangerous_found keywords s = true.
Proof.
  induction keywords as [|k ks IH]; simpl; [tauto|].
  intros [-> | Hin] Hc.
  - now rewrite Hc.
  - destruct (Py.contains k (Py.split s)); [reflexivity | now apply IH].
Qed.

Lemma dangerous_keywords_solid (kw : string) :
  In kw Gate.dangerous_keywords -> kw <> "" /\ solid kw = true.
Proof.
  unfold Gate.dangerous_keywords. simpl.
  intros H. repeat (destruct H as [<- | H]; [split; [discriminate | reflexivity] |]).
  contradiction.
Qed.

(** C2.  A query whose lower-cased, trimmed text does not start with
    "select" is rejected by [validate_sql], whatever keywords it contains. *)
Theorem validate_sql_requires_select (q : string) :
  Py.startswith (Py.strip (Py.lower q)) "select" = false ->
  Gate.validate_sql q = false.
Proof.
  intros H. unfold Gate.validate_sql.
  destruct (Gate.dangerous_found _ _); [reflexivity|].
  now rewrite H.
Qed.

Lemma validate_sql_requires_select_witness :
  Py.startswith (Py.strip (Py.lower "  SHOW tables")) "select" = false
  /\ Gate.dangerous_found Gate.dangerous_keywords (Py.lower "  SHOW tables") = false
  /\ Gate.validate_sql "  SHOW tables" = false.
Proof.
  split; [reflexivity|]. split; [reflexivity|].
  apply (validate_sql_requires_select "  SHOW tables"). reflexivity.
Defined.

(** C3.  A query that contains, in any letter case, a denylisted keyword as
    a whole word (whitespace or an end of the query on either side) is
    rejected by [validate_sql], also when it starts with "select". *)
Theorem validate_sql_rejects_denylisted (q w : string) :
  In (Py.lower w) Gate.dangerous_keywords ->
  whole_word w q ->
  Gate.validate_sql q = false.
Proof.
  intros Hkw Hw. unfold Gate.validate_sql.
  destruct (dangerous_keywords_solid _ Hkw) as [Hne Hsolid].
  rewrite (dangerous_found_In _ (Py.lower w)); [reflexivity | assumption |].
  apply contains_In, whole_word_in_split; try assumption.
  now apply whole_word_lower.
Qed.

Lemma validate_sql_rejects_denylisted_witness :
  Py.startswith (Py.strip (Py.lower "select 1; DROP table x")) "select" = true
  /\ Gate.validate_sql "select 1; DROP table x" = false.
Proof.
  split; [reflexivity|].
  apply (validate_sql_rejects_denylisted "select 1; DROP table x" "DROP").
  - simpl. tauto.
  - exists "select 1; ", " table x". split; [reflexivity|]. split; right.
    + exists "select 1;", " "%char. split; reflexivity.
    + exists " "%char, "table x". split; reflexivity.
Defined.

(** ** The executor *)

Ltac lookup_literal :=
  repeat (rewrite lookup_insert_ne by discriminate);
  first [ apply lookup_insert_eq | apply lookup_empty ].

Section ExecutorFacts.
Variable env : Collaborators.

Lemma failure_result_fields (msg : string) :
  let r := SQLExecutor.failure_result msg in
  r !! "success" = Some (VBool false)
  /\ r !! "error" = Some (VStr msg)
  /\ r !! "data" = Some VNone
  /\ r !! "columns" = Some VNone
  /\ r !! "row_count" = Some (VInt 0).
Proof. unfold SQLExecutor.failure_result. repeat split; lookup_literal. Qed.

Lemma success_result_fields (data : list pyval) (columns : list string)
    (n : nat) :
  let r := SQLExecutor.success_result data columns n in
  r !! "success" = Some (VBool true)
  /\ r !! "error" = None
  /\ r !! "data" = Some (VList data)
  /\ r !! "columns" = Some (VList (map VStr columns))
  /\ r !! "row_count" = Some (VInt (Z.of_nat n)).
Proof. unfold SQLExecutor.success_result. repeat split; lookup_literal. Qed.

(** What [execute_sql] returns: one of the two dictionaries. *)
Lemma execute_sql_returns (q : string) (w w' : World)
    (r : gmap string pyval) :
  SQLExecutor.execute_sql env q w = (Ok r, w') ->
  (exists msg, r = SQLExecutor.failure_result msg)
  \/ (exists data columns,
        r = SQLExecutor.success_result data columns (length data)).
Proof.
  unfold SQLExecutor.execute_sql, SQLExecutor.get_db_session,
    SQLExecutor.run_query, SQLExecutor.log_db, SQLExecutor.exception_result,
    finally, bind, ret, raise.
  destruct (negb (SQLExecutor.validate_sql q)).
  { intros [= <- _]. left. eauto. }
  destruct (session_failure env); [discriminate|].
  destruct (db_execute env q) as [keys rows | e].
  - destruct (SQLExecutor.df_empty rows).
    + intros [= <- _]. right. now exists [], keys.
    + destruct (df_records env keys rows) as [records | e].
      * intros [= <- _]. right. now exists records, keys.
      * destruct (exn_cls e); intros [= <- _]; left; eauto.
  - destruct (exn_cls e); intros [= <- _]; left; eauto.
Qed.

End ExecutorFacts.

(** C5.  When [validate_sql] rejects the query, [execute_sql] returns the
    failure dictionary with the error "SQL query failed validation" and
    leaves the world as it was: no session is opened and nothing is sent to
    the store. *)
Theorem execute_sql_validation_failure (env : Collaborators) (q : string)
    (w : World) :
  Gate.validate_sql q = false ->
  exists r,
    SQLExecutor.execute_sql env q w = (Ok r, w)
    /\ r !! "success" = Some (VBool false)
    /\ r !! "error" = Some (VStr "SQL query failed validation")
    /\ r !! "data" = Some VNone
    /\ r !! "columns" = Some VNone
    /\ r !! "row_count" = Some (VInt 0).
Proof.
  intros Hv. exists (SQLExecutor.failure_result "SQL query failed validation").
  split; [| apply failure_result_fields].
  unfold SQLExecutor.execute_sql, SQLExecutor.validate_sql. now rewrite Hv.
Qed.

(** C6.  Every dictionary [execute_sql] returns has a Boolean under
    "success"; when it is false, "data" and "columns" are None and
    "row_count" is 0; when it is true, "data" is a list and "row_count" is
    its length. *)
Theorem execute_sql_result_shape (env : Collaborators) (q : string)
    (w w' : World) (r : gmap string pyval) :
  SQLExecutor.execute_sql env q w = (Ok r, w') ->
  exists b, r !! "success" = Some (VBool b)
  /\ (b = false ->
      r !! "data" = Some VNone /\ r !! "columns" = Some VNone
      /\ r !! "row_count" = Some (VInt 0))
  /\ (b = true ->
      exists data, r !! "data" = Some (VList data)
      /\ r !! "row_count" = Some (VInt (Z.of_nat (length data)))).
Proof.
  intros H. apply execute_sql_returns in H as [[msg ->] | (data & cols & ->)].
  - exists false. destruct (failure_result_fields msg) as (? & ? & ? & ? & ?).
    split; [assumption|]. split; [auto | discriminate].
  - exists true.
    destruct (success_result_fields data cols (length data)) as (? & ? & ? & ? & ?).
    split; [assumption|]. split; [discriminate | eauto].
Qed.

Lemma execute_sql_validation_failure_witness :
  Gate.validate_sql "drop table clientes" = false
  /\ exists r,
       SQLExecutor.execute_sql sample_env "drop table clientes" empty_world
       = (Ok r, empty_world)
       /\ r !! "success" = Some (VBool false)
       /\ r !! "error" = Some (VStr "SQL query failed validation")
       /\ r !! "data" = Some VNone
       /\ r !! "columns" = Some VNone
       /\ r !! "row_count" = Some (VInt 0).
Proof.
  split; [reflexivity|].
  apply (execute_sql_validation_failure sample_env "drop table clientes"
           empty_world).
  reflexivity.
Defined.

Lemma execute_sql_result_shape_witness :
  exists b,
    SQLExecutor.success_result [VDict [("nome", VStr "Ana")]] ["nome"] 1
      !! "success" = Some (VBool b)
    /\ (b = false ->
        SQLExecutor.success_result [VDict [("nome", VStr "Ana")]] ["nome"] 1
          !! "data" = Some VNone
        /\ SQLExecutor.success_result [VDict [("nome", VStr "Ana")]] ["nome"] 1
             !! "columns" = Some VNone
        /\ SQLExecutor.success_result [VDict [("nome", VStr "Ana")]] ["nome"] 1
             !! "row_count" = Some (VInt 0))
    /\ (b = true ->
        exists data,
          SQLExecutor.success_result [VDict [("nome", VStr "Ana")]] ["nome"] 1
            !! "data" = Some (VList data)
          /\ SQLExecutor.success_result [VDict [("nome", VStr "Ana")]] ["nome"] 1
               !! "row_count" = Some (VInt (Z.of_nat (length data)))).
Proof.
  apply (execute_sql_result_shape sample_env "SELECT nome FROM clientes"
           empty_world
           (MkWorld ∅ [SessionOpened; Executed "SELECT nome FROM clientes";
                       SessionClosed])).
  reflexivity.
Defined.

(** ** The stages *)

Section StageFacts.
Variable env : Collaborators.

Lemma has_errors_nonempty (c : Context) :
  has_errors c = true <-> errors c <> [].
Proof.
  unfold has_errors. destruct (errors c); cbn; split; intros H;
    try discriminate; try reflexivity. now contradiction H.
Qed.

Lemma has_errors_false (c : Context) :
  has_errors c = false <-> errors c = [].
Proof.
  unfold has_errors. destruct (errors c); cbn; split; intros H;
    try discriminate; reflexivity.
Qed.

Lemma last_nonempty {A} (l : list A) : l <> [] -> exists x, last l = Some x.
Proof.
  intros H. destruct (last l) as [x|] eqn:E; [eauto|].
  apply last_None in E. contradiction.
Qed.

(** With errors present, [format_response] writes the apology that quotes
    the last error and changes nothing else. *)
Lemma format_response_with_errors (c : Context) (w : World) (e : ErrorEntry) :
  last (errors c) = Some e ->
  Flow.format_response env c w
  = (set_response ("I'm sorry, but I encountered an error: " ++ message e) c, w).
Proof.
  intros H. unfold Flow.format_response, get_last_error.
  assert (Hne : has_errors c = true).
  { apply has_errors_nonempty. intros Hnil. rewrite Hnil in H. discriminate. }
  now rewrite Hne, H.
Qed.

(** An exception of [add_interaction] leaves the world as it was. *)
Lemma add_interaction_raise (uid q sq : string) (r : gmap string pyval)
    (resp : string) (w w' : World) (e : exn) :
  MemoryManager.add_interaction env uid q sq r resp w = (Raise e, w') ->
  w' = w.
Proof.
  unfold MemoryManager.add_interaction, bind, lift.
  destruct (MemoryManager.load_memory env uid w) as [[doc|e0] w1] eqn:Hl;
    assert (Hw : w1 = w)
      by (revert Hl; unfold MemoryManager.load_memory;
          destruct (fs w !! _) as [[| | |]|]; congruence);
    subst w1; [|congruence].
  destruct (getitem r "success"); [|congruence].
  destruct (getitem r "row_count"); [|congruence].
  destruct (MemoryManager.get_conversations doc); [|congruence].
  unfold MemoryManager.save_memory.
  destruct (open_w_failure env _); [congruence|].
  destruct (fs w !! _) as [[| | |]|]; congruence.
Qed.

(** [save_memory] keeps the context, or appends one error tagged
    "save_memory" and then leaves the world alone. *)
Lemma save_memory_cases (c c' : Context) (w w' : World) :
  Flow.save_memory env c w = (c', w') ->
  c' = c
  \/ exists msg, c' = add_error "save_memory" msg "general" c /\ w' = w.
Proof.
  unfold Flow.save_memory.
  destruct (MemoryManager.add_interaction _ _ _ _ _ _ _) as [[[]|e] w1] eqn:E;
    intros [= <- <-]; [now left | right].
  eexists. split; [reflexivity|]. now apply add_interaction_raise in E.
Qed.

Lemma save_memory_fields (c c' : Context) (w w' : World) :
  Flow.save_memory env c w = (c', w') ->
  response c' = response c /\ sql_query c' = sql_query c
  /\ query_results c' = query_results c
  /\ conversation_history c' = conversation_history c
  /\ is_query_validated c' = is_query_validated c
  /\ exists later, errors c' = (errors c ++ later)%list.
Proof.
  intros H. apply save_memory_cases in H as [-> | (msg & -> & _)].
  - repeat split. exists []. now rewrite app_nil_r.
  - repeat split. now eexists.
Qed.

End StageFacts.

Section StageFacts2.
Variable env : Collaborators.

(** [execute_sql] touches only the results, the validation flag and the
    errors, to which it appends. *)
Lemma execute_sql_fields (c c' : Context) (w w' : World) :
  Flow.execute_sql env c w = (c', w') ->
  user_id c' = user_id c /\ question c' = question c
  /\ sql_query c' = sql_query c /\ response c' = response c
  /\ conversation_history c' = conversation_history c
  /\ exists later, errors c' = (errors c ++ later)%list.
Proof.
  unfold Flow.execute_sql, Flow.execute_sql_failed.
  destruct (SQLExecutor.execute_sql _ _ _) as [[r|e] w1].
  - destruct (getitem r "success") as [v|e].
    + destruct (truthy v).
      * intros [= <- <-]. repeat split. exists []. cbn. now rewrite app_nil_r.
      * destruct (getitem r "error"); intros [= <- <-]; repeat split;
          now eexists.
    + intros [= <- <-]. repeat split. now eexists.
  - intros [= <- <-]. repeat split. now eexists.
Qed.

(** What [execute_sql] leaves when the executor returns a dictionary. *)
Lemma execute_sql_stores (c c' : Context) (w w' w1 : World)
    (r : gmap string pyval) :
  SQLExecutor.execute_sql env (sql_query c) w = (Ok r, w1) ->
  Flow.execute_sql env c w = (c', w') ->
  w' = w1 /\ query_results c' = r.
Proof.
  intros Hr. unfold Flow.execute_sql, Flow.execute_sql_failed. rewrite Hr.
  destruct (getitem r "success") as [v|e].
  - destruct (truthy v).
    + now intros [= <- <-].
    + destruct (getitem r "error"); now intros [= <- <-].
  - now intros [= <- <-].
Qed.

Lemma format_response_fields (c c' : Context) (w w' : World) :
  Flow.format_response env c w = (c', w') ->
  w' = w /\ sql_query c' = sql_query c
  /\ query_results c' = query_results c
  /\ conversation_history c' = conversation_history c
  /\ is_query_validated c' = is_query_validated c
  /\ exists later, errors c' = (errors c ++ later)%list.
Proof.
  unfold Flow.format_response.
  destruct (has_errors c).
  - intros [= <- <-]. repeat split. exists []. cbn. now rewrite app_nil_r.
  - destruct (ResponseFormatter.format_response _ _ _ _);
      intros [= <- <-]; repeat split.
    + exists []. cbn. now rewrite app_nil_r.
    + now eexists.
Qed.

End StageFacts2.




(** ** The response when there are errors *)

Section ErrorRendering.
Variable env : Collaborators.

Lemma success_flag (c : Context) :
  negb (has_errors c) = match errors c with [] => true | _ => false end.
Proof. unfold has_errors. now destruct (errors c). Qed.

(** A context that reaches [format_response] with errors leaves it with the
    apology for the last of them. *)
Lemma format_response_apology (c c' : Context) (w w' : World) :
  errors c <> [] ->
  Flow.format_response env c w = (c', w') ->
  exists e, last (errors c) = Some e
  /\ c' = set_response ("I'm sorry, but I encountered an error: " ++ message e) c.
Proof.
  intros Hne H. destruct (last_nonempty _ Hne) as [e He].
  rewrite (format_response_with_errors env c w e He) in H.
  exists e. split; [assumption | congruence].
Qed.

(** Formatting on [c], then saving. *)
Lemma apology_survives_saving (c c1 c2 : Context) (w w1 w2 : World) :
  errors c <> [] ->
  Flow.format_response env c w = (c1, w1) ->
  Flow.save_memory env c1 w1 = (c2, w2) ->
  exists e later, last (errors c) = Some e
  /\ response c2 = "I'm sorry, but I encountered an error: " ++ message e
  /\ errors c2 = (errors c ++ later)%list.
Proof.
  intros Hne Hf Hs.
  destruct (format_response_apology _ _ _ _ Hne Hf) as (e & He & ->).
  destruct (save_memory_fields env _ _ _ _ Hs) as (Hr & _ & _ & _ & _ & later & Hl).
  exists e, later. rewrite Hr, Hl. now repeat split.
Qed.

End ErrorRendering.

(** What [process_question] does, whatever the collaborators, the user, the
    question and the world: the builder has no [invoke], so the call raises
    before any stage has run, and the world is left as it was. *)
Lemma process_question_raises (env : Collaborators) (uid q : string)
    (w : World) :
  SQLAgentGraph.process_question env uid q w
  = (Raise (Exn AttributeError "'StateGraph' object has no attribute 'invoke'"),
     w).
Proof. reflexivity. Qed.

(** C7.  The contract holds of the stages and of the dictionary that
    [process_question] makes of a final context, but no such dictionary is
    ever returned.  On a context with errors, [format_response] writes the
    apology that quotes the message of the last of them; [save_memory],
    run after it, keeps that response and at most appends an error; and
    the dictionary made of the context it leaves has the apology as its
    response, all the errors in order, and the success flag false, as it is
    exactly when the error list is not empty.  [process_question] itself
    hands the fresh context to the [invoke] of the graph builder, which
    raises [AttributeError] before any stage runs. *)
Theorem error_response_is_never_returned (env : Collaborators) (c : Context)
    (w : World) (e : ErrorEntry) (uid q : string) (w0 : World) :
  last (errors c) = Some e ->
  Flow.format_response env c w
  = (set_response ("I'm sorry, but I encountered an error: " ++ message e) c,
     w)
  /\ (exists c2 w2 later,
        Flow.save_memory env
          (set_response ("I'm sorry, but I encountered an error: " ++ message e)
             c) w = (c2, w2)
        /\ answer_response (SQLAgentGraph.result_of q c2)
           = "I'm sorry, but I encountered an error: " ++ message e
        /\ answer_errors (SQLAgentGraph.result_of q c2)
           = (errors c ++ later)%list
        /\ answer_success (SQLAgentGraph.result_of q c2) = false
        /\ answer_success (SQLAgentGraph.result_of q c2)
           = match answer_errors (SQLAgentGraph.result_of q c2) with
             | [] => true
             | _ => false
             end)
  /\ SQLAgentGraph.process_question env uid q w0
     = (Raise (Exn AttributeError "'StateGraph' object has no attribute 'invoke'"),
        w0).
Proof.
  intros He.
  pose proof (format_response_with_errors env c w e He) as Hf.
  split; [exact Hf|]. split; [|apply process_question_raises].
  assert (Hne : errors c <> []) by (intros E; rewrite E in He; discriminate).
  destruct (Flow.save_memory env
              (set_response
                 ("I'm sorry, but I encountered an error: " ++ message e) c) w)
    as [c2 w2] eqn:Hs.
  destruct (apology_survives_saving env c _ c2 w w w2 Hne Hf Hs)
    as (e' & later & He' & Hr & Hl).
  assert (e' = e) by congruence. subst e'.
  exists c2, w2, later. split; [reflexivity|].
  unfold SQLAgentGraph.result_of.
  cbn [answer_response answer_errors answer_success].
  rewrite success_flag, Hl. repeat split; try assumption;
    destruct (errors c); cbn; congruence.
Qed.

Lemma error_response_is_never_returned_witness :
  Flow.format_response sample_env_generator_down
    (add_error "generate_sql" "Error generating SQL: model unavailable"
       "general" (new_context "u1" "Quais clientes compraram um Notebook?"))
    empty_world
  = (set_response
       "I'm sorry, but I encountered an error: Error generating SQL: model unavailable"
       (add_error "generate_sql" "Error generating SQL: model unavailable"
          "general" (new_context "u1" "Quais clientes compraram um Notebook?")),
     empty_world)
  /\ SQLAgentGraph.process_question sample_env_generator_down "u1"
       "Quais clientes compraram um Notebook?" empty_world
     = (Raise (Exn AttributeError "'StateGraph' object has no attribute 'invoke'"),
        empty_world).
Proof.
  destruct (error_response_is_never_returned sample_env_generator_down
              (add_error "generate_sql"
                 "Error generating SQL: model unavailable" "general"
                 (new_context "u1" "Quais clientes compraram um Notebook?"))
              empty_world
              (MkError "generate_sql"
                 "Error generating SQL: model unavailable" "general")
              "u1" "Quais clientes compraram um Notebook?" empty_world
              eq_refl)
    as (Hf & _ & Hp).
  split; [exact Hf | exact Hp].
Defined.

(** ** The graph as it is declared *)

Section DeclaredGraph.
Variable env : Collaborators.

(** Every arrow of the graph leads forward in the order of the nodes: the
    graph has no cycle. *)
Lemma graph_all_forward : all_forward (SQLAgentGraph.build_graph env) = true.
Proof. reflexivity. Qed.

(** [load_context] touches only the history, the metadata and the errors. *)
Lemma load_context_fields (c c' : Context) (w w' : World) :
  Flow.load_context env c w = (c', w') ->
  user_id c' = user_id c /\ question c' = question c
  /\ sql_query c' = sql_query c /\ query_results c' = query_results c
  /\ is_query_validated c' = is_query_validated c
  /\ response c' = response c
  /\ exists later, errors c' = (errors c ++ later)%list.
Proof.
  unfold Flow.load_context.
  destruct (MemoryManager.get_recent_interactions _ _ _ _) as [[l|e] w1];
    intros [= <- <-]; repeat split.
  - exists []. cbn. now rewrite app_nil_r.
  - now eexists.
Qed.

End DeclaredGraph.

(** C4.  The graph that [build_graph] declares has no cycle: every arrow
    of it, conditional or not, leads to a node added later or to the end.
    But no run visits [format_response] or [save_memory], once or
    otherwise, and none reaches the end: [process_question] hands the
    context to the [invoke] of the graph builder, which was never
    compiled; the call raises [AttributeError] before any stage runs, and
    the store and the history files are left as they were. *)
Theorem acyclic_graph_is_never_run (env : Collaborators) (uid q : string)
    (w : World) :
  all_forward (SQLAgentGraph.graph env) = true
  /\ SQLAgentGraph.process_question env uid q w
     = (Raise (Exn AttributeError "'StateGraph' object has no attribute 'invoke'"),
        w).
Proof. split; reflexivity. Qed.

(** ** A generator that fails *)

Section GenerationFailure.
Variable env : Collaborators.

(** On a query the gate rejects, [execute_sql] stores the failure
    dictionary, records the error and leaves the world alone. *)
Lemma execute_sql_rejected (c : Context) (w : World) :
  Gate.validate_sql (sql_query c) = false ->
  Flow.execute_sql env c w
  = (add_error "execute_sql"
       "Query execution failed: SQL query failed validation" "database_error"
       (set_is_query_validated false
          (set_query_results
             (SQLExecutor.failure_result "SQL query failed validation") c)),
     w).
Proof.
  intros Hv. unfold Flow.execute_sql, SQLExecutor.execute_sql,
    SQLExecutor.validate_sql, ret.
  rewrite Hv. cbn [negb].
  destruct (failure_result_fields "SQL query failed validation")
    as (Hs & He & _).
  unfold getitem. now rewrite Hs, He.
Qed.

End GenerationFailure.

(** C1.  There is no run in which [generate_sql] appends an error and no
    final errors list: [process_question] hands the context to the
    [invoke] of the graph builder, which raises [AttributeError] before
    any stage runs.  Nor do the stages and the declared graph make the
    short circuit.  Besides the conditional edges, the graph has an edge
    from [generate_sql] to [execute_sql] that asks for no condition; and
    [execute_sql] has no guard of its own: run on the context that a
    failed [generate_sql] leaves, with its query still empty, it stores
    the failure dictionary of the gate and appends its own error after the
    one of [generate_sql]. *)
Theorem failed_generation_is_not_short_circuited (env : Collaborators)
    (uid q : string) (w : World) (e : exn) (c : Context) :
  SQLGenerator.generate_sql env q = Raise e ->
  question c = q ->
  sql_query c = "" ->
  SQLAgentGraph.process_question env uid q w
  = (Raise (Exn AttributeError "'StateGraph' object has no attribute 'invoke'"),
     w)
  /\ In ("generate_sql", "execute_sql")
        (LangGraph.edges (SQLAgentGraph.graph env))
  /\ exists c2 c3,
       Flow.generate_sql env c w = (c2, w)
       /\ errors c2
          = (errors c
             ++ [MkError "generate_sql" ("Error generating SQL: " ++ exn_str e)
                   "general"])%list
       /\ query_results c2 = query_results c
       /\ Flow.execute_sql env c2 w = (c3, w)
       /\ query_results c3
          = SQLExecutor.failure_result "SQL query failed validation"
       /\ is_query_validated c3 = false
       /\ errors c3
          = (errors c2
             ++ [MkError "execute_sql"
                   "Query execution failed: SQL query failed validation"
                   "database_error"])%list.
Proof.
  intros Hg Hq Hs. split; [apply process_question_raises|].
  split; [cbn; tauto|].
  eexists _, _. split.
  { unfold Flow.generate_sql. rewrite Hq, Hg. reflexivity. }
  split; [reflexivity|]. split; [reflexivity|]. split.
  { apply execute_sql_rejected. cbn [sql_query add_error]. now rewrite Hs. }
  repeat split.
Qed.

Lemma failed_generation_is_not_short_circuited_witness :
  SQLAgentGraph.process_question sample_env_generator_down "u1"
    "Quais clientes compraram um Notebook?" empty_world
  = (Raise (Exn AttributeError "'StateGraph' object has no attribute 'invoke'"),
     empty_world)
  /\ exists c2 c3,
       Flow.generate_sql sample_env_generator_down
         (new_context "u1" "Quais clientes compraram um Notebook?") empty_world
       = (c2, empty_world)
       /\ Flow.execute_sql sample_env_generator_down c2 empty_world
          = (c3, empty_world)
       /\ query_results c3
          = SQLExecutor.failure_result "SQL query failed validation"
       /\ map agent (errors c3) = ["generate_sql"; "execute_sql"].
Proof.
  destruct (failed_generation_is_not_short_circuited
              sample_env_generator_down "u1"
              "Quais clientes compraram um Notebook?" empty_world
              (Exn OtherError "model unavailable")
              (new_context "u1" "Quais clientes compraram um Notebook?")
              eq_refl eq_refl eq_refl)
    as (Hp & _ & c2 & c3 & Hg & He2 & _ & Hx & Hr & _ & He3).
  split; [exact Hp|]. exists c2, c3.
  split; [exact Hg|]. split; [exact Hx|]. split; [exact Hr|].
  rewrite He3, He2. reflexivity.
Defined.

(** ** A history that cannot be read *)

Section LoadContextFacts.
Variable env : Collaborators.

Lemma load_context_errors (c c' : Context) (w w' : World) :
  Flow.load_context env c w = (c', w') ->
  exists later, errors c' = (errors c ++ later)%list
  /\ Forall (fun e => agent e = "load_context") later.
Proof.
  unfold Flow.load_context.
  destruct (MemoryManager.get_recent_interactions _ _ _ _) as [[l|e] w1];
    intros [= <- <-].
  - exists []. cbn. now rewrite app_nil_r.
  - eexists. split; [reflexivity|]. now repeat constructor.
Qed.

(** Reading the recent interactions changes nothing. *)
Lemma get_recent_interactions_reads (uid : string) (limit : Z) (w w' : World)
    (outcome : res (list interaction)) :
  MemoryManager.get_recent_interactions env uid limit w = (outcome, w') ->
  w' = w.
Proof.
  unfold MemoryManager.get_recent_interactions, bind, lift, ret,
    MemoryManager.load_memory.
  destruct (fs w !! _) as [[e|e| |doc]|]; try congruence;
    destruct (MemoryManager.get_conversations _); congruence.
Qed.

End LoadContextFacts.


(** C8.  The stage [load_context] does not let a failure of the read out:
    it appends one error tagged "load_context" and returns the context,
    its conversation history still empty, having changed nothing of the
    world.  But the pipeline does not go on from there, and [generate_sql]
    and [execute_sql] do not run: [process_question] hands the context to
    the [invoke] of the graph builder, which raises [AttributeError]
    before any stage runs, so that no query is generated, the store is
    not asked, and nothing is returned. *)
Theorem load_failure_run_raises (env : Collaborators) (uid q : string)
    (w w1 : World) (e : exn) :
  MemoryManager.get_recent_interactions env uid 5 w = (Raise e, w1) ->
  Flow.load_context env (new_context uid q) w
  = (add_error "load_context" ("Error loading context: " ++ exn_str e)
       "general" (new_context uid q),
     w)
  /\ conversation_history
       (add_error "load_context" ("Error loading context: " ++ exn_str e)
          "general" (new_context uid q)) = []
  /\ SQLAgentGraph.process_question env uid q w
     = (Raise (Exn AttributeError "'StateGraph' object has no attribute 'invoke'"),
        w).
Proof.
  intros Hr.
  pose proof (get_recent_interactions_reads env uid 5 w w1 _ Hr) as ->.
  split; [|split; [reflexivity | apply process_question_raises]].
  unfold Flow.load_context. change (user_id (new_context uid q)) with uid.
  now rewrite Hr.
Qed.

Lemma load_failure_run_raises_witness :
  Flow.load_context sample_env (new_context "u1" "Quem e cliente?")
    locked_world
  = (add_error "load_context" "Error loading context: Permission denied"
       "general" (new_context "u1" "Quem e cliente?"),
     locked_world)
  /\ SQLAgentGraph.process_question sample_env "u1" "Quem e cliente?"
       locked_world
     = (Raise (Exn AttributeError "'StateGraph' object has no attribute 'invoke'"),
        locked_world).
Proof.
  destruct (load_failure_run_raises sample_env "u1" "Quem e cliente?"
              locked_world locked_world (Exn OSError "Permission denied")
              eq_refl)
    as (Hl & _ & Hp).
  split; [exact Hl | exact Hp].
Defined.

(** ** The path of a user's history file *)

Section PathFacts.

Lemma length_append (a b : string) :
  String.length (a ++ b) = (String.length a + String.length b)%nat.
Proof. induction a as [|c a IH]; simpl; [reflexivity | now rewrite IH]. Qed.

Lemma append_inj_r (a b c : string) : a ++ c = b ++ c -> a = b.
Proof.
  revert b. induction a as [|x a IH]; intros [|y b] H; simpl in H.
  - reflexivity.
  - apply (f_equal String.length) in H. simpl in H.
    rewrite length_append in H. lia.
  - apply (f_equal String.length) in H. simpl in H.
    rewrite length_append in H. lia.
  - injection H as -> H. f_equal. now apply IH.
Qed.

Lemma append_inj_l (a b c : string) : a ++ b = a ++ c -> b = c.
Proof. induction a as [|x a IH]; simpl; [auto | intros [= H]; auto]. Qed.

Lemma endswith_suffix (s p : string) :
  Py.endswith s p = true -> exists d, s = d ++ p.
Proof.
  induction s as [|c s IH]; cbn [Py.endswith]; intros H.
  - apply orb_prop in H as [H | H]; [|discriminate].
    apply String.eqb_eq in H as <-. now exists "".
  - apply orb_prop in H as [H | H].
    + apply String.eqb_eq in H as <-. now exists "".
    + destruct (IH H) as [d ->]. now exists (String c d).
Qed.

Lemma startswith_slash_cons (c : ascii) (s : string) :
  Py.startswith (String c s) "/" = Ascii.eqb c "/".
Proof.
  unfold Py.startswith. cbn [String.prefix].
  destruct (ascii_dec "/" c) as [<- | Hne].
  - now destruct s.
  - symmetry. apply Ascii.eqb_neq. congruence.
Qed.

Lemma no_slash_not_absolute (b : string) :
  Path.has_slash b = false -> Py.startswith b "/" = false.
Proof.
  destruct b as [|c b]; [reflexivity|].
  rewrite startswith_slash_cons. cbn [Path.has_slash].
  now intros [H _]%orb_false_elim.
Qed.

Lemma is_absolute_append (a b : string) :
  a <> "" -> Path.is_absolute (a ++ b) = Path.is_absolute a.
Proof.
  destruct a as [|c a]; [congruence|]. intros _. unfold Path.is_absolute.
  cbn [String.append]. now rewrite !startswith_slash_cons.
Qed.

Lemma has_slash_append (a b : string) :
  Path.has_slash (a ++ b) = Path.has_slash a || Path.has_slash b.
Proof.
  induction a as [|c a IH]; simpl; [reflexivity|].
  now rewrite IH, orb_assoc.
Qed.

Lemma components_from_no_slash (b : string) :
  Path.has_slash b = false ->
  forall cur, Path.components_from cur b = [cur ++ b].
Proof.
  induction b as [|c b IH]; simpl; intros H cur.
  - now rewrite append_nil_r.
  - apply orb_false_elim in H as [Hc Hb]. rewrite Hc.
    rewrite (IH Hb). now rewrite append_assoc.
Qed.

Lemma components_from_slash (a b : string) :
  forall cur,
    Path.components_from cur (a ++ String "/" b)
    = (Path.components_from cur a ++ Path.components_from "" b)%list.
Proof.
  induction a as [|c a IH]; simpl; intros cur; [reflexivity|].
  destruct (Ascii.eqb c "/"); simpl; now rewrite IH.
Qed.

Lemma resolve_app (absolute : bool) (l1 l2 : list string) :
  Path.resolve absolute (l1 ++ l2)
  = fold_left (Path.enter absolute) l2 (Path.resolve absolute l1).
Proof. unfold Path.resolve. apply fold_left_app. Qed.

Lemma enter_name (absolute : bool) (stack : list string) (b : string) :
  b <> "" -> b <> "." -> b <> ".." ->
  Path.enter absolute stack b = (stack ++ [b])%list.
Proof.
  intros H0 H1 H2. unfold Path.enter.
  apply String.eqb_neq in H0, H1, H2. now rewrite H0, H1, H2.
Qed.

Lemma is_proper_prefix_snoc (l : list string) (b : string) :
  Path.is_proper_prefix l (l ++ [b]) = true.
Proof.
  induction l as [|x l IH]; simpl; [reflexivity|].
  now rewrite String.eqb_refl.
Qed.

(** A file name: not empty, not "." or "..", without a slash. *)
Lemma json_name (uid : string) :
  Path.has_slash uid = false ->
  let b := uid ++ ".json" in
  Path.has_slash b = false /\ b <> "" /\ b <> "." /\ b <> "..".
Proof.
  intros H b. subst b. rewrite has_slash_append, H.
  split; [reflexivity|].
  repeat split; intros E; apply (f_equal String.length) in E;
    rewrite length_append in E; simpl in E; lia.
Qed.

(** A name joined to a directory lies inside the directory. *)
Lemma joined_name_inside (dir b : string) :
  Path.has_slash b = false -> b <> "" -> b <> "." -> b <> ".." ->
  Path.inside dir (os_path_join dir b) = true.
Proof.
  intros Hs H0 H1 H2. unfold os_path_join.
  rewrite (no_slash_not_absolute b Hs).
  assert (Hkey : forall d,
             Path.resolve (Path.is_absolute dir) (Path.components dir)
             = Path.resolve (Path.is_absolute dir) (Path.components d) ->
             dir <> "" -> d ++ String "/" b = dir ++ String "/" b
                          \/ d ++ String "/" b = dir ++ b ->
             forall p, p = d ++ String "/" b ->
             Path.is_absolute p = Path.is_absolute dir ->
             Path.inside dir p = true).
  { intros d Hres Hne _ p -> Habs. unfold Path.inside, Path.location.
    rewrite Habs, eqb_reflx. cbn [andb snd]. rewrite Hres.
    unfold Path.components. rewrite components_from_slash, resolve_app.
    rewrite (components_from_no_slash b Hs). cbn [fold_left String.append].
    rewrite enter_name by assumption. apply is_proper_prefix_snoc. }
  destruct (String.eqb dir "") eqn:Hdir; cbn [orb].
  - apply String.eqb_eq in Hdir as ->. cbn [String.append].
    unfold Path.inside, Path.location, Path.components.
    rewrite (components_from_no_slash b Hs).
    unfold Path.is_absolute. rewrite (no_slash_not_absolute b Hs).
    cbn. now rewrite enter_name by assumption.
  - apply String.eqb_neq in Hdir.
    destruct (Py.endswith dir "/") eqn:Hend.
    + destruct (endswith_suffix _ _ Hend) as [d Hd].
      apply (Hkey d); try assumption.
      * rewrite Hd. unfold Path.components.
        rewrite components_from_slash, resolve_app. reflexivity.
      * right. rewrite Hd. now rewrite append_assoc.
      * rewrite Hd. now rewrite append_assoc.
      * now apply is_absolute_append.
    + apply (Hkey dir); try assumption; try reflexivity; try tauto.
      replace (dir ++ "/" ++ b) with (dir ++ String "/" b) by reflexivity.
      now apply is_absolute_append.
Qed.

End PathFacts.

(** The path of a user id is the join of the memory directory and the id
    followed by ".json", whatever the id contains: with "../evil" it leaves
    the memory directory, and with an id that starts with a slash the
    directory is dropped altogether. *)
Lemma memory_path_escapes_directory :
  MemoryManager.get_user_memory_path sample_env "../evil"
  = "memory/../evil.json"
  /\ Path.inside (memory_dir sample_env)
       (MemoryManager.get_user_memory_path sample_env "../evil") = false
  /\ MemoryManager.get_user_memory_path sample_env "/etc/passwd"
     = "/etc/passwd.json"
  /\ ~ (forall user_id,
          Path.inside (memory_dir sample_env)
            (MemoryManager.get_user_memory_path sample_env user_id) = true).
Proof.
  assert (H : Path.inside (memory_dir sample_env)
                (MemoryManager.get_user_memory_path sample_env "../evil")
              = false) by (vm_compute; reflexivity).
  split; [vm_compute; reflexivity|]. split; [exact H|].
  split; [vm_compute; reflexivity|].
  intros Hall. specialize (Hall "../evil"). rewrite H in Hall. discriminate.
Qed.

(** C9 (amended).  The path of a user's history file is a function of the
    user id alone.  For a user id without a slash it lies inside the memory
    directory, and two such ids have different paths. *)
Theorem memory_path_inside_directory (env : Collaborators)
    (user_id : string) :
  Path.has_slash user_id = false ->
  Path.inside (memory_dir env)
    (MemoryManager.get_user_memory_path env user_id) = true
  /\ forall other,
       Path.has_slash other = false ->
       MemoryManager.get_user_memory_path env other
       = MemoryManager.get_user_memory_path env user_id ->
       other = user_id.
Proof.
  intros Hs. destruct (json_name user_id Hs) as (Hb & H0 & H1 & H2).
  split.
  - unfold MemoryManager.get_user_memory_path.
    now apply joined_name_inside.
  - intros other Ho. destruct (json_name other Ho) as (Hbo & _).
    unfold MemoryManager.get_user_memory_path, os_path_join.
    rewrite (no_slash_not_absolute _ Hb), (no_slash_not_absolute _ Hbo).
    destruct (_ || _); intros E; apply append_inj_l in E.
    + now apply append_inj_r in E.
    + apply (append_inj_l "/") in E. now apply append_inj_r in E.
Qed.

Lemma memory_path_inside_directory_witness :
  Path.has_slash "u1" = false
  /\ MemoryManager.get_user_memory_path sample_env "u1" = "memory/u1.json"
  /\ Path.inside (memory_dir sample_env)
       (MemoryManager.get_user_memory_path sample_env "u1") = true.
Proof.
  split; [reflexivity|]. split; [vm_compute; reflexivity|].
  apply (memory_path_inside_directory sample_env "u1"). reflexivity.
Defined.

(** ** Worked examples *)

Example validate_plain_select :
  Gate.validate_sql "SELECT nome FROM clientes" = true.
Proof. reflexivity. Qed.

Example validate_select_then_drop :
  Gate.validate_sql "select 1; drop table x" = false.
Proof. reflexivity. Qed.

(** A keyword glued to punctuation is no token of [split]. *)
Example validate_glued_keyword :
  Py.split (Py.lower "select 1;drop table x")
  = ["select"; "1;drop"; "table"; "x"]
  /\ Gate.validate_sql "select 1;drop table x" = true.
Proof. split; reflexivity. Qed.

Example validate_empty_query : Gate.validate_sql "" = false.
Proof. reflexivity. Qed.

Example split_on_any_whitespace :
  Py.split (String (ascii_of_N 9) "a  b" ++ newline ++ "c ")
  = ["a"; "b"; "c"].
Proof. reflexivity. Qed.

Example strip_both_ends : Py.strip "  select 1  " = "select 1".
Proof. reflexivity. Qed.

Example generator_removes_fence :
  SQLGenerator.generate_sql sample_env_fenced "Quanto e um?" = Ok "SELECT 1".
Proof. reflexivity. Qed.

Example join_examples :
  os_path_join "memory" "u1.json" = "memory/u1.json"
  /\ os_path_join "memory/" "u1.json" = "memory/u1.json"
  /\ os_path_join "" "u1.json" = "u1.json"
  /\ os_path_join "memory" "/tmp/u1.json" = "/tmp/u1.json".
Proof. repeat split; reflexivity. Qed.

Example last_items_examples :
  last_items 5 [1; 2; 3; 4; 5; 6; 7] = [3; 4; 5; 6; 7]
  /\ last_items 5 [1; 2] = [1; 2]
  /\ last_items 0 [1; 2; 3] = [1; 2; 3]
  /\ last_items (-2) [1; 2; 3] = [3]
  /\ last_items (-5) [1; 2; 3] = [].
Proof. repeat split; reflexivity. Qed.

(** The question of a user is answered with an exception, whatever the
    collaborators do. *)
Example process_question_on_sample :
  SQLAgentGraph.process_question sample_env "u1" "Quem e cliente?" empty_world
  = (Raise (Exn AttributeError "'StateGraph' object has no attribute 'invoke'"),
     empty_world).
Proof. reflexivity. Qed.

(** A history file in a directory that is missing is not written, and
    nothing tells. *)
Example save_memory_without_directory :
  MemoryManager.get_user_memory_path sample_env_no_directory "a/b"
  = "memory/a/b.json"
  /\ MemoryManager.save_memory sample_env_no_directory "a/b"
       (MemoryManager.create_empty_memory sample_env_no_directory) empty_world
     = (Ok tt, empty_world).
Proof. split; reflexivity. Qed.

(** Bytes that are no text are not taken for an empty history. *)
Example load_memory_undecodable :
  MemoryManager.load_memory sample_env "u1" undecodable_world
  = (Raise (Exn UnicodeDecodeError
              "'utf-8' codec can't decode byte 0xff in position 0: invalid start byte"),
     undecodable_world)
  /\ MemoryManager.load_memory sample_env "u1" garbled_world
     = (Ok (MemoryManager.create_empty_memory sample_env), garbled_world).
Proof. split; reflexivity. Qed.

(** An exception of pandas is answered like one of the store. *)
Example execute_sql_frame_fails :
  SQLExecutor.execute_sql sample_env_frame_fails "SELECT nome FROM clientes"
    empty_world
  = (Ok (SQLExecutor.failure_result
           "Unexpected error: Length mismatch: Expected axis has 2 elements, new values have 1 elements"),
     MkWorld ∅ [SessionOpened; Executed "SELECT nome FROM clientes";
                SessionClosed]).
Proof. reflexivity. Qed.

(** * Further properties *)

(** ** The safety gate, characterised *)

Section GateFacts.

Lemma contains_false (x : string) (l : list string) :
  Py.contains x l = false <-> ~ In x l.
Proof.
  unfold Py.contains. split.
  - intros H Hin. apply contains_In in Hin. unfold Py.contains in Hin.
    congruence.
  - intros H. destruct (existsb _ l) eqn:E; [|reflexivity].
    apply existsb_exists in E as (y & Hy & Heq).
    apply String.eqb_eq in Heq as <-. contradiction.
Qed.

Lemma dangerous_found_false (keywords : list string) (s : string) :
  Gate.dangerous_found keywords s = false
  <-> forall kw, In kw keywords -> ~ In kw (Py.split s).
Proof.
  induction keywords as [|k ks IH]; cbn [Gate.dangerous_found].
  - split; [intros _ kw [] | reflexivity].
  - destruct (Py.contains k (Py.split s)) eqn:E.
    + split; [discriminate|]. intros H. exfalso.
      apply (H k); [now left|].
      destruct (existsb_exists (String.eqb k) (Py.split s)) as [Hx _].
      destruct (Hx E) as (y & Hy & Heq). now apply String.eqb_eq in Heq as <-.
    + rewrite IH. apply contains_false in E. split.
      * intros H kw [<- | Hin]; auto.
      * intros H kw Hin. apply H. now right.
Qed.

Lemma lower_char_idempotent (c : ascii) :
  Py.lower_char (Py.lower_char c) = Py.lower_char c.
Proof. destruct c as [[] [] [] [] [] [] [] []]; reflexivity. Qed.

Lemma lower_idempotent (s : string) : Py.lower (Py.lower s) = Py.lower s.
Proof.
  induction s as [|c s IH]; simpl; [reflexivity|].
  now rewrite lower_char_idempotent, IH.
Qed.

Lemma lower_lstrip (s : string) :
  Py.lower (Py.lstrip s) = Py.lstrip (Py.lower s).
Proof.
  induction s as [|c s IH]; simpl; [reflexivity|].
  rewrite isspace_lower_char. now destruct (Py.isspace c).
Qed.

Lemma lower_rstrip (s : string) :
  Py.lower (Py.rstrip s) = Py.rstrip (Py.lower s).
Proof.
  induction s as [|c s IH]; simpl; [reflexivity|].
  rewrite <- IH, isspace_lower_char.
  destruct (Py.rstrip s); simpl; [now destruct (Py.isspace c) | reflexivity].
Qed.

Lemma lower_strip (s : string) : Py.lower (Py.strip s) = Py.strip (Py.lower s).
Proof. unfold Py.strip. now rewrite lower_rstrip, lower_lstrip. Qed.

Lemma split_from_blank (s : string) :
  blank s = true ->
  forall cur, Py.split_from cur s = match cur with "" => [] | _ => [cur] end.
Proof.
  induction s as [|c s IH]; simpl; intros H cur; [reflexivity|].
  apply andb_prop in H as [Hc Hs]. rewrite Hc, (IH Hs "").
  now destruct cur.
Qed.

Lemma rstrip_empty_blank (s : string) : Py.rstrip s = "" -> blank s = true.
Proof.
  induction s as [|c s IH]; simpl; [reflexivity|].
  destruct (Py.rstrip s) eqn:E; [|discriminate].
  destruct (Py.isspace c); [|discriminate]. intros _. now rewrite IH.
Qed.

Lemma blank_rstrip (s : string) : blank s = true -> Py.rstrip s = "".
Proof.
  induction s as [|c s IH]; simpl; [reflexivity|].
  intros [Hc Hs]%andb_prop. now rewrite (IH Hs), Hc.
Qed.

Lemma blank_lstrip (s : string) : blank s = true -> Py.lstrip s = "".
Proof.
  induction s as [|c s IH]; simpl; [reflexivity|].
  intros [Hc Hs]%andb_prop. now rewrite Hc, (IH Hs).
Qed.

Lemma split_lstrip (s : string) : Py.split (Py.lstrip s) = Py.split s.
Proof.
  unfold Py.split. induction s as [|c s IH]; simpl; [reflexivity|].
  destruct (Py.isspace c) eqn:E; [exact IH|]. simpl. now rewrite E.
Qed.

Lemma split_from_rstrip (s : string) :
  forall cur, Py.split_from cur (Py.rstrip s) = Py.split_from cur s.
Proof.
  induction s as [|c s IH]; intros cur; [reflexivity|].
  cbn [Py.rstrip]. destruct (Py.rstrip s) as [|a r] eqn:E.
  - pose proof (rstrip_empty_blank s E) as Hb.
    destruct (Py.isspace c) eqn:Hc; cbn [Py.split_from]; rewrite Hc.
    + rewrite (split_from_blank s Hb ""). now destruct cur.
    + rewrite (split_from_blank s Hb). cbn [Py.split_from].
      destruct cur; reflexivity.
  - clear E. revert IH. generalize (String a r). intros t IH.
    cbn [Py.split_from]. now rewrite !IH.
Qed.

Lemma split_strip (s : string) : Py.split (Py.strip s) = Py.split s.
Proof.
  unfold Py.strip, Py.split at 1. rewrite split_from_rstrip.
  apply split_lstrip.
Qed.

Lemma lstrip_first (s : string) (c : ascii) :
  first_char (Py.lstrip s) = Some c -> Py.isspace c = false.
Proof.
  induction s as [|a s IH]; simpl; [discriminate|].
  destruct (Py.isspace a) eqn:E; [exact IH|]. simpl. congruence.
Qed.

Lemma rstrip_last (s : string) (c : ascii) :
  last_char (Py.rstrip s) = Some c -> Py.isspace c = false.
Proof.
  induction s as [|a s IH]; cbn [Py.rstrip]; [discriminate|].
  destruct (Py.rstrip s) as [|b r] eqn:E.
  - destruct (Py.isspace a) eqn:Ha; simpl; congruence.
  - intros H. apply IH. exact H.
Qed.

Lemma rstrip_first (s : string) :
  Py.rstrip s <> "" -> first_char (Py.rstrip s) = first_char s.
Proof.
  destruct s as [|a s]; cbn [Py.rstrip]; [congruence|].
  destruct (Py.rstrip s); [|reflexivity].
  destruct (Py.isspace a); [congruence | reflexivity].
Qed.

Lemma lstrip_id (s : string) :
  match first_char s with Some c => Py.isspace c = false | None => True end ->
  Py.lstrip s = s.
Proof. destruct s as [|a s]; simpl; [reflexivity | now intros ->]. Qed.

Lemma rstrip_id (s : string) :
  match last_char s with Some c => Py.isspace c = false | None => True end ->
  Py.rstrip s = s.
Proof.
  induction s as [|a s IH]; [reflexivity|].
  cbn [Py.rstrip last_char]. destruct s as [|b s].
  - simpl. now intros ->.
  - intros H. now rewrite (IH H).
Qed.

(** [strip] leaves a string without whitespace at either end, and leaves
    such a string alone. *)
Lemma strip_trimmed (s : string) : trimmed (Py.strip s) = true.
Proof.
  unfold trimmed, Py.strip.
  destruct (last_char (Py.rstrip (Py.lstrip s))) as [b|] eqn:Hl;
    destruct (first_char (Py.rstrip (Py.lstrip s))) as [a|] eqn:Hf;
    try reflexivity.
  rewrite (rstrip_last _ _ Hl).
  rewrite rstrip_first in Hf.
  - now rewrite (lstrip_first _ _ Hf).
  - intros E. rewrite E in Hl. discriminate.
Qed.

Lemma last_char_none (s : string) : last_char s = None -> s = "".
Proof.
  induction s as [|a s IH]; [reflexivity|]. cbn [last_char].
  destruct s; [discriminate|]. intros H. now apply IH in H.
Qed.

Lemma strip_id (s : string) : trimmed s = true -> Py.strip s = s.
Proof.
  unfold trimmed, Py.strip. intros H.
  destruct (first_char s) as [a|] eqn:Hf.
  - destruct (last_char s) as [b|] eqn:Hl.
    + apply andb_prop in H as [Ha Hb]. apply negb_true_iff in Ha, Hb.
      rewrite lstrip_id by now rewrite Hf.
      apply rstrip_id. now rewrite Hl.
    + apply last_char_none in Hl. now subst s.
  - destruct s; [reflexivity | discriminate].
Qed.

Lemma strip_idempotent (s : string) : Py.strip (Py.strip s) = Py.strip s.
Proof. apply strip_id, strip_trimmed. Qed.

Lemma dangerous_found_split (keywords : list string) (s t : string) :
  Py.split s = Py.split t ->
  Gate.dangerous_found keywords s = Gate.dangerous_found keywords t.
Proof.
  intros H. induction keywords as [|k ks IH]; cbn [Gate.dangerous_found];
    [reflexivity|]. now rewrite H, IH.
Qed.

End GateFacts.

(** X1.  [validate_sql] accepts a query exactly when its lower-cased,
    trimmed text starts with "select" and none of the denylisted keywords
    is one of its whitespace-delimited tokens. *)
Theorem validate_sql_accepts_iff (q : string) :
  Gate.validate_sql q = true
  <-> Py.startswith (Py.strip (Py.lower q)) "select" = true
      /\ forall kw, In kw Gate.dangerous_keywords ->
                    ~ In kw (Py.split (Py.lower q)).
Proof.
  unfold Gate.validate_sql. rewrite <- dangerous_found_false.
  destruct (Gate.dangerous_found _ _);
    destruct (Py.startswith _ _); cbn; intuition congruence.
Qed.

(** X2.  The verdict of [validate_sql] depends neither on the letter case
    of the query nor on whitespace around it. *)
Theorem validate_sql_ignores_case_and_margins (q : string) :
  Gate.validate_sql (Py.lower q) = Gate.validate_sql q
  /\ Gate.validate_sql (Py.strip q) = Gate.validate_sql q.
Proof.
  unfold Gate.validate_sql. split.
  - now rewrite lower_idempotent.
  - rewrite lower_strip, strip_idempotent.
    now rewrite (dangerous_found_split _ _ (Py.lower q) (split_strip _)).
Qed.

(** X3.  A query that is empty or consists of whitespace only is rejected,
    and [execute_sql] answers it without using the store. *)
Theorem blank_query_is_rejected (env : Collaborators) (q : string)
    (w : World) :
  blank q = true ->
  Gate.validate_sql q = false
  /\ SQLExecutor.execute_sql env q w
     = (Ok (SQLExecutor.failure_result "SQL query failed validation"), w).
Proof.
  intros Hb.
  assert (Hv : Gate.validate_sql q = false).
  { assert (Hl : blank (Py.lower q) = true).
    { clear -Hb. induction q as [|c q IH]; simpl in *; [reflexivity|].
      apply andb_prop in Hb as [Hc Hq].
      now rewrite isspace_lower_char, Hc, IH. }
    unfold Gate.validate_sql, Py.strip. rewrite (blank_lstrip _ Hl).
    now destruct (Gate.dangerous_found _ _). }
  split; [exact Hv|].
  unfold SQLExecutor.execute_sql, SQLExecutor.validate_sql. now rewrite Hv.
Qed.

Lemma blank_query_is_rejected_witness :
  blank "   " = true
  /\ Gate.validate_sql "   " = false
  /\ SQLExecutor.execute_sql sample_env "   " empty_world
     = (Ok (SQLExecutor.failure_result "SQL query failed validation"),
        empty_world).
Proof.
  split; [reflexivity|].
  apply (blank_query_is_rejected sample_env "   " empty_world). reflexivity.
Defined.

(** ** The executor and the store *)

(** X4.  Whatever the query and the collaborators, [execute_sql] never
    touches the file system, and what it asks of the store is nothing at
    all or one session that is opened, used for the query, which the gate
    then has accepted, and closed again. *)
Theorem execute_sql_store_discipline (env : Collaborators) (q : string)
    (w : World) :
  exists r w',
    SQLExecutor.execute_sql env q w = (r, w')
    /\ fs w' = fs w
    /\ (db_log w' = db_log w
        \/ (Gate.validate_sql q = true
            /\ session_failure env = None
            /\ db_log w'
               = (db_log w ++ [SessionOpened; Executed q; SessionClosed])%list)).
Proof.
  unfold SQLExecutor.execute_sql, SQLExecutor.get_db_session,
    SQLExecutor.run_query, SQLExecutor.log_db, SQLExecutor.validate_sql,
    SQLExecutor.session_close, finally, bind, ret, raise.
  destruct (Gate.validate_sql q); cbn [negb].
  - destruct (session_failure env) as [e|].
    + eexists _, _. split; [reflexivity|]. split; [reflexivity|]. now left.
    + destruct (db_execute env q) as [keys rows|e];
        [destruct (SQLExecutor.df_empty rows);
         [|destruct (df_records env keys rows)] |];
        (eexists _, _; split; [reflexivity|]; split; [reflexivity|]; right;
         split; [reflexivity|]; split; [reflexivity|]; cbn;
         now rewrite <- !app_assoc).
  - eexists _, _. split; [reflexivity|]. split; [reflexivity|]. now left.
Qed.

(** X5.  A query that the gate accepts and that yields no row is a success:
    [execute_sql] returns "success" True with "data" the empty list,
    "row_count" 0 and the column names of the store's answer. *)
Theorem execute_sql_no_rows_is_success (env : Collaborators) (q : string)
    (w : World) (keys : list string) :
  Gate.validate_sql q = true ->
  session_failure env = None ->
  db_execute env q = DbRows keys [] ->
  exists r w',
    SQLExecutor.execute_sql env q w = (Ok r, w')
    /\ r !! "success" = Some (VBool true)
    /\ r !! "data" = Some (VList [])
    /\ r !! "columns" = Some (VList (map VStr keys))
    /\ r !! "row_count" = Some (VInt 0)
    /\ r !! "error" = None.
Proof.
  intros Hv Hs Hd.
  unfold SQLExecutor.execute_sql, SQLExecutor.get_db_session,
    SQLExecutor.run_query, SQLExecutor.log_db, SQLExecutor.validate_sql,
    finally, bind, ret.
  rewrite Hv, Hs, Hd. cbn [negb SQLExecutor.df_empty forallb].
  eexists _, _. split; [reflexivity|].
  destruct (success_result_fields [] keys 0) as (? & ? & ? & ? & ?).
  now repeat split.
Qed.

Lemma execute_sql_no_rows_is_success_witness :
  exists r w',
    SQLExecutor.execute_sql sample_env_empty_table
      "SELECT nome FROM clientes WHERE saldo > 9000" empty_world
    = (Ok r, w')
    /\ r !! "success" = Some (VBool true)
    /\ r !! "data" = Some (VList [])
    /\ r !! "columns" = Some (VList (map VStr ["nome"]))
    /\ r !! "row_count" = Some (VInt 0)
    /\ r !! "error" = None.
Proof.
  apply (execute_sql_no_rows_is_success sample_env_empty_table
           "SELECT nome FROM clientes WHERE saldo > 9000" empty_world
           ["nome"]); reflexivity.
Defined.

(** X6.  When the store raises, [execute_sql] does not: it returns the
    failure dictionary whose error text begins with "Database error: " for
    an exception of the SQL toolkit and with "Unexpected error: " for any
    other, and the session is closed all the same. *)
Theorem execute_sql_store_exception (env : Collaborators) (q : string)
    (w : World) (e : exn) :
  Gate.validate_sql q = true ->
  session_failure env = None ->
  db_execute env q = DbRaise e ->
  SQLExecutor.execute_sql env q w
  = (Ok (SQLExecutor.failure_result
           ((match exn_cls e with
             | SQLAlchemyError => "Database error: "
             | _ => "Unexpected error: "
             end) ++ exn_str e)),
     MkWorld (fs w)
             (db_log w ++ [SessionOpened; Executed q; SessionClosed])).
Proof.
  intros Hv Hs Hd.
  unfold SQLExecutor.execute_sql, SQLExecutor.get_db_session,
    SQLExecutor.run_query, SQLExecutor.log_db, SQLExecutor.validate_sql,
    SQLExecutor.session_close, SQLExecutor.exception_result, finally, bind,
    ret.
  rewrite Hv, Hs, Hd. cbn [negb].
  destruct (exn_cls e); cbn; now rewrite <- !app_assoc.
Qed.

Lemma execute_sql_store_exception_witness :
  SQLExecutor.execute_sql sample_env_store_down "SELECT nome FROM clientes"
    empty_world
  = (Ok (SQLExecutor.failure_result
           "Database error: relation clientes does not exist"),
     MkWorld ∅ [SessionOpened; Executed "SELECT nome FROM clientes";
                SessionClosed]).
Proof.
  apply (execute_sql_store_exception sample_env_store_down
           "SELECT nome FROM clientes" empty_world
           (Exn SQLAlchemyError "relation clientes does not exist"));
    reflexivity.
Defined.

(** ** Texts made from the executor's results *)

Section ResultTexts.
Variable env : Collaborators.

Lemma of_nat_eq_zero (n : nat) :
  eq_zero (VInt (Z.of_nat n)) = match n with O => true | S _ => false end.
Proof. destruct n; reflexivity. Qed.

End ResultTexts.

(** X7.  [format_results] never raises on a dictionary that [execute_sql]
    returned, whatever the format type: a failure gives "Error: " followed
    by the error text, a success without rows gives "No results found.". *)
Theorem format_results_of_executor_results (env : Collaborators)
    (df_to_string df_to_html : pyval -> string) (q format_type : string)
    (w w' : World) (r : gmap string pyval) :
  SQLExecutor.execute_sql env q w = (Ok r, w') ->
  exists text,
    ResultsFormat.format_results env df_to_string df_to_html r format_type
    = Ok text
    /\ (forall msg, r !! "error" = Some (VStr msg) -> text = "Error: " ++ msg)
    /\ (r !! "success" = Some (VBool true) ->
        r !! "row_count" = Some (VInt 0) -> text = "No results found.").
Proof.
  intros H. apply execute_sql_returns in H as [[msg ->] | (data & cols & ->)];
    unfold ResultsFormat.format_results, getitem.
  - destruct (failure_result_fields msg) as (Hs & He & _).
    rewrite Hs, He. cbn [truthy negb ResponseFormatter.py_str].
    eexists. split; [reflexivity|]. split.
    + intros m [= ->]. reflexivity.
    + discriminate.
  - destruct (success_result_fields data cols (length data))
      as (Hs & He & Hd & _ & Hn).
    rewrite Hs, He, Hn, Hd. cbn [truthy negb]. rewrite of_nat_eq_zero.
    destruct data as [|x data]; cbn [length].
    + eexists. split; [reflexivity|]. split; [discriminate | reflexivity].
    + destruct (String.eqb format_type "text");
        [|destruct (String.eqb format_type "html")];
        (eexists; split; [reflexivity|]; split; [discriminate|]);
        intros _ [=].
Qed.

Lemma format_results_of_executor_results_witness :
  exists text,
    ResultsFormat.format_results sample_env (fun _ => "") (fun _ => "")
      (SQLExecutor.failure_result "SQL query failed validation") "html"
    = Ok text
    /\ (forall msg,
          SQLExecutor.failure_result "SQL query failed validation" !! "error"
          = Some (VStr msg) -> text = "Error: " ++ msg)
    /\ (SQLExecutor.failure_result "SQL query failed validation" !! "success"
        = Some (VBool true) ->
        SQLExecutor.failure_result "SQL query failed validation" !! "row_count"
        = Some (VInt 0) -> text = "No results found.").
Proof.
  apply (format_results_of_executor_results sample_env (fun _ => "")
           (fun _ => "") "drop table clientes" "html" empty_world empty_world).
  reflexivity.
Defined.

(** X8.  [ResponseFormatter.format_response] never raises on a dictionary
    that [execute_sql] returned.  When the chain fails it answers with the
    fixed texts of its fallback: the error text of a failure, and the
    sentence for no results when there are no rows. *)
Theorem format_response_of_executor_results (env : Collaborators)
    (question q : string) (w w' : World) (r : gmap string pyval) :
  SQLExecutor.execute_sql env q w = (Ok r, w') ->
  exists results_str text,
    ResponseFormatter.results_text env r = Ok results_str
    /\ ResponseFormatter.format_response env question q r = Ok text
    /\ (forall response,
          formatter_chain env question q results_str = Ok response ->
          text = response)
    /\ (forall e msg,
          formatter_chain env question q results_str = Raise e ->
          r !! "error" = Some (VStr msg) ->
          text = "There was an error processing your query: " ++ msg)
    /\ (forall e,
          formatter_chain env question q results_str = Raise e ->
          r !! "success" = Some (VBool true) ->
          r !! "row_count" = Some (VInt 0) ->
          text = "No results were found that match your query.").
Proof.
  intros H. apply execute_sql_returns in H as [[msg ->] | (data & cols & ->)];
    unfold ResponseFormatter.format_response, ResponseFormatter.results_text,
      ResponseFormatter.fallback, getitem.
  - destruct (failure_result_fields msg) as (Hs & He & _).
    rewrite Hs, He. cbn [truthy ResponseFormatter.py_str].
    match goal with |- exists rs t, Ok ?X = Ok rs /\ _ => exists X end.
    destruct (formatter_chain env question q _) as [resp|e];
      eexists; (split; [reflexivity|]); (split; [reflexivity|]);
      repeat split; try congruence; try discriminate.
  - destruct (success_result_fields data cols (length data))
      as (Hs & He & Hd & _ & Hn).
    rewrite Hs, He, Hn, Hd. cbn [truthy]. rewrite of_nat_eq_zero.
    destruct data as [|x data]; cbn [length ResponseFormatter.iterate];
      match goal with |- exists rs t, Ok ?X = Ok rs /\ _ => exists X end;
      destruct (formatter_chain env question q _) as [resp|e];
      eexists; (split; [reflexivity|]); (split; [reflexivity|]);
      repeat split; try congruence; try discriminate;
      intros; discriminate.
Qed.

Lemma format_response_of_executor_results_witness :
  exists results_str text,
    ResponseFormatter.results_text sample_env_formatter_down
      (SQLExecutor.failure_result "SQL query failed validation")
    = Ok results_str
    /\ ResponseFormatter.format_response sample_env_formatter_down
         "Quantos clientes?" "drop table clientes"
         (SQLExecutor.failure_result "SQL query failed validation")
       = Ok text
    /\ text
       = "There was an error processing your query: SQL query failed validation".
Proof.
  destruct (format_response_of_executor_results sample_env_formatter_down
              "Quantos clientes?" "drop table clientes" empty_world
              empty_world
              (SQLExecutor.failure_result "SQL query failed validation")
              eq_refl)
    as (rs & text & Hrs & Hf & _ & Herr & _).
  exists rs, text. split; [exact Hrs|]. split; [exact Hf|].
  apply (Herr (Exn OtherError "model unavailable")
              "SQL query failed validation"); [reflexivity|].
  apply failure_result_fields.
Defined.

(** ** The memory of a user *)

Section MemoryFacts.
Variable env : Collaborators.

Local Abbreviation path_of uid := (MemoryManager.get_user_memory_path env uid).

(** [load_memory] reads only: it returns a document unless the file cannot
    be read. *)
Lemma load_memory_ok (uid : string) (w w' : World) (doc : memory_doc) :
  MemoryManager.load_memory env uid w = (Ok doc, w') ->
  w' = w /\ forall e, fs w !! path_of uid <> Some (Locked e).
Proof.
  unfold MemoryManager.load_memory.
  destruct (fs w !! _) as [[e|e| |d]|]; intros [= <- <-]; split;
    try reflexivity; intros e'; discriminate.
Qed.

Lemma load_memory_world (uid : string) (w : World) :
  (MemoryManager.load_memory env uid w).2 = w.
Proof.
  unfold MemoryManager.load_memory. now destruct (fs w !! _) as [[e|e| |d]|].
Qed.



(** [save_memory] writes the user's own file or nothing, and never
    raises. *)
Lemma save_memory_frame (uid : string) (memory : memory_doc) (w : World) :
  (MemoryManager.save_memory env uid memory w).1 = Ok tt
  /\ db_log (MemoryManager.save_memory env uid memory w).2 = db_log w
  /\ forall p, p <> path_of uid ->
               fs (MemoryManager.save_memory env uid memory w).2 !! p
               = fs w !! p.
Proof.
  unfold MemoryManager.save_memory.
  destruct (open_w_failure env _); [now repeat split|].
  destruct (fs w !! path_of uid) as [[e|e| |d]|]; repeat split;
    intros p Hp; cbn [fs snd]; now rewrite lookup_insert_ne.
Qed.


Lemma last_items_nil {A} (limit : Z) : last_items limit (@nil A) = [].
Proof. unfold last_items. destruct (0 <? limit)%Z; apply drop_nil. Qed.

Lemma recent_of_conversations {A} (limit : Z) (l : list A) :
  match l with [] => [] | _ => last_items limit l end = last_items limit l.
Proof. destruct l; [|reflexivity]. now rewrite last_items_nil. Qed.

(** [get_recent_interactions] on a history that can be read. *)
Lemma get_recent_interactions_ok (uid : string) (limit : Z) (w : World)
    (doc : memory_doc) (l : list interaction) :
  MemoryManager.load_memory env uid w = (Ok doc, w) ->
  conversations doc = Some l ->
  MemoryManager.get_recent_interactions env uid limit w
  = (Ok (last_items limit l), w).
Proof.
  intros Hload Hl.
  unfold MemoryManager.get_recent_interactions, bind, lift, ret,
    MemoryManager.get_conversations.
  now rewrite Hload, Hl, recent_of_conversations.
Qed.



Lemma last_items_length {A} (limit : Z) (l : list A) :
  (0 < limit)%Z ->
  length (last_items limit l) = Nat.min (Z.to_nat limit) (length l).
Proof.
  intros H. unfold last_items.
  destruct (Z.ltb_spec 0 limit); [|lia]. rewrite length_drop. lia.
Qed.


(** [add_interaction] writes the user's own file or nothing. *)
Lemma add_interaction_frame (uid q sq : string) (r : gmap string pyval)
    (resp : string) (w w' : World) (outcome : res unit) :
  MemoryManager.add_interaction env uid q sq r resp w = (outcome, w') ->
  db_log w' = db_log w
  /\ (forall p, p <> path_of uid -> fs w' !! p = fs w !! p)
  /\ (forall e, outcome = Raise e -> w' = w).
Proof.
  destruct outcome as [[]|e]; intros E.
  - revert E. unfold MemoryManager.add_interaction, bind, lift.
    destruct (MemoryManager.load_memory env uid w) as [[doc|e] w1] eqn:Hload;
      [|discriminate].
    apply load_memory_ok in Hload as [-> Hfree].
    destruct (getitem r "success"); [|discriminate].
    destruct (getitem r "row_count"); [|discriminate].
    destruct (MemoryManager.get_conversations doc) as [l|]; [|discriminate].
    intros E.
    match type of E with
    | MemoryManager.save_memory env uid ?m w = _ =>
        destruct (save_memory_frame uid m w) as (_ & Hd & Hf);
        rewrite E in Hd, Hf
    end.
    split; [exact Hd|]. split; [exact Hf | discriminate].
  - apply add_interaction_raise in E as ->. repeat split.
Qed.

End MemoryFacts.






(** X12.  [get_recent_interactions] only reads.  On a history that can be
    read it returns the end of the recorded conversations: with a positive
    limit as many records as the limit allows, with the limit 0 all of
    them, and with a negative limit all but the first ones, as many as the
    limit counts below 0. *)
Theorem recent_interactions_are_the_latest (env : Collaborators)
    (uid : string) (limit : Z) (w : World) (doc : memory_doc)
    (l : list interaction) :
  MemoryManager.load_memory env uid w = (Ok doc, w) ->
  conversations doc = Some l ->
  exists recent older,
    MemoryManager.get_recent_interactions env uid limit w = (Ok recent, w)
    /\ l = (older ++ recent)%list
    /\ ((0 < limit)%Z ->
        length recent = Nat.min (Z.to_nat limit) (length l))
    /\ (limit = 0%Z -> recent = l)
    /\ ((limit < 0)%Z ->
        length older = Nat.min (Z.to_nat (- limit)) (length l)).
Proof.
  intros Hload Hl.
  exists (last_items limit l), (take (length l - length (last_items limit l)) l).
  split; [now apply (get_recent_interactions_ok env uid limit w doc)|].
  assert (Hcases : last_items limit l
                   = if (0 <? limit)%Z then drop (length l - Z.to_nat limit) l
                     else drop (Z.to_nat (- limit)) l) by reflexivity.
  split; [|split; [|split]].
  - rewrite Hcases. destruct (0 <? limit)%Z; rewrite length_drop.
    + replace (length l - (length l - (length l - Z.to_nat limit)))%nat
        with (length l - Z.to_nat limit)%nat by lia.
      symmetry. apply take_drop.
    + destruct (Nat.le_gt_cases (length l) (Z.to_nat (- limit))) as [Hle|Hgt].
      * rewrite (drop_ge l (Z.to_nat (- limit))) by exact Hle.
        rewrite app_nil_r.
        replace (length l - (length l - Z.to_nat (- limit)))%nat
          with (length l) by lia.
        symmetry. apply firstn_all.
      * replace (length l - (length l - Z.to_nat (- limit)))%nat
          with (Z.to_nat (- limit)) by lia.
        symmetry. apply take_drop.
  - apply last_items_length.
  - intros ->. reflexivity.
  - intros Hneg. rewrite Hcases. destruct (Z.ltb_spec 0 limit); [lia|].
    rewrite length_take, length_drop. lia.
Qed.

Lemma recent_interactions_are_the_latest_witness :
  exists recent older,
    MemoryManager.get_recent_interactions sample_env "u1" 2 history_world
    = (Ok recent, history_world)
    /\ sample_history = (older ++ recent)%list
    /\ length recent = 2%nat.
Proof.
  destruct (recent_interactions_are_the_latest sample_env "u1" 2 history_world
              (MemoryDoc (Some sample_history) [] "2024-04-30T09:00:00")
              sample_history eq_refl eq_refl)
    as (recent & older & Hr & Hsplit & Hlen & _).
  exists recent, older. split; [exact Hr|]. split; [exact Hsplit|].
  exact (Hlen eq_refl).
Defined.

(** X13.  A history file that is missing, or that is a text which is not
    JSON, counts as an empty history: [load_memory] returns the empty
    memory, [get_recent_interactions] the empty list, whatever the limit,
    and [get_context_for_question] the sentence for no interactions, and
    nothing is written. *)
Theorem unreadable_history_is_empty (env : Collaborators)
    (uid question : string) (limit : Z) (w : World) :
  fs w !! MemoryManager.get_user_memory_path env uid = None
  \/ fs w !! MemoryManager.get_user_memory_path env uid = Some Garbled ->
  MemoryManager.load_memory env uid w
  = (Ok (MemoryManager.create_empty_memory env), w)
  /\ MemoryManager.get_recent_interactions env uid limit w = (Ok [], w)
  /\ MemoryContext.get_context_for_question env uid question w
     = (Ok "No previous interactions found.", w).
Proof.
  intros H.
  assert (Hload : MemoryManager.load_memory env uid w
                  = (Ok (MemoryManager.create_empty_memory env), w)).
  { unfold MemoryManager.load_memory. now destruct H as [-> | ->]. }
  split; [exact Hload|].
  pose proof (fun k => get_recent_interactions_ok env uid k w _ []
                         Hload eq_refl) as Hrec.
  split.
  - rewrite Hrec. now rewrite last_items_nil.
  - unfold MemoryContext.get_context_for_question, bind, ret.
    now rewrite Hrec.
Qed.

Lemma unreadable_history_is_empty_witness :
  MemoryManager.load_memory sample_env "u1" garbled_world
  = (Ok (MemoryManager.create_empty_memory sample_env), garbled_world)
  /\ MemoryManager.get_recent_interactions sample_env "u1" 5 garbled_world
     = (Ok [], garbled_world)
  /\ MemoryContext.get_context_for_question sample_env "u1" "Quem e cliente?"
       garbled_world
     = (Ok "No previous interactions found.", garbled_world).
Proof.
  apply (unreadable_history_is_empty sample_env "u1" "Quem e cliente?" 5
           garbled_world).
  right. reflexivity.
Defined.



(** X15.  A history document without the key "conversations" is not
    repaired either: reading the recent interactions and adding one both
    raise the [KeyError] of that key and leave the file as it is. *)
Theorem history_without_conversations (env : Collaborators)
    (uid q sq : string) (r : gmap string pyval) (resp : string) (w : World)
    (doc : memory_doc) (s n : pyval) (limit : Z) :
  fs w !! MemoryManager.get_user_memory_path env uid = Some (Json doc) ->
  conversations doc = None ->
  r !! "success" = Some s ->
  r !! "row_count" = Some n ->
  MemoryManager.get_recent_interactions env uid limit w
  = (Raise (Exn KeyError "'conversations'"), w)
  /\ MemoryManager.add_interaction env uid q sq r resp w
     = (Raise (Exn KeyError "'conversations'"), w).
Proof.
  intros Hf Hc Hs Hn.
  unfold MemoryManager.get_recent_interactions, MemoryManager.add_interaction,
    bind, lift, getitem, MemoryManager.get_conversations,
    MemoryManager.load_memory.
  now rewrite Hf, Hc, Hs, Hn.
Qed.

Lemma history_without_conversations_witness :
  MemoryManager.get_recent_interactions sample_env "u1" 5
    (MkWorld (<["memory/u1.json" := Json (MemoryDoc None [] "")]> ∅) [])
  = (Raise (Exn KeyError "'conversations'"),
     MkWorld (<["memory/u1.json" := Json (MemoryDoc None [] "")]> ∅) [])
  /\ MemoryManager.add_interaction sample_env "u1" "Quem e cliente?"
       "SELECT nome FROM clientes"
       (SQLExecutor.failure_result "SQL query failed validation")
       "I'm sorry."
       (MkWorld (<["memory/u1.json" := Json (MemoryDoc None [] "")]> ∅) [])
     = (Raise (Exn KeyError "'conversations'"),
        MkWorld (<["memory/u1.json" := Json (MemoryDoc None [] "")]> ∅) []).
Proof.
  apply (history_without_conversations sample_env "u1" "Quem e cliente?"
           "SELECT nome FROM clientes"
           (SQLExecutor.failure_result "SQL query failed validation")
           "I'm sorry."
           (MkWorld (<["memory/u1.json" := Json (MemoryDoc None [] "")]> ∅) [])
           (MemoryDoc None [] "") (VBool false) (VInt 0) 5); reflexivity.
Defined.


(** X17.  [get_context_for_question] does not look at the question: the
    text is made of the recent interactions alone.  It is the sentence for
    no interactions exactly when nothing is recorded, and begins with the
    heading for previous interactions otherwise. *)
Theorem context_for_question_cases (env : Collaborators)
    (uid question : string) (w : World) (doc : memory_doc)
    (l : list interaction) :
  MemoryManager.load_memory env uid w = (Ok doc, w) ->
  conversations doc = Some l ->
  exists text,
    MemoryContext.get_context_for_question env uid question w = (Ok text, w)
    /\ (l = [] <-> text = "No previous interactions found.")
    /\ (l <> [] ->
        Py.startswith text ("Previous interactions:" ++ newline) = true)
    /\ (forall question',
          MemoryContext.get_context_for_question env uid question' w
          = (Ok text, w)).
Proof.
  intros Hload Hl.
  unfold MemoryContext.get_context_for_question, bind, ret.
  rewrite (get_recent_interactions_ok env uid 5 w doc l Hload Hl).
  destruct (last_items 5 l) as [|x recent] eqn:E.
  - eexists. split; [reflexivity|]. split; [|split].
    + split; [reflexivity|]. intros _.
      apply (f_equal (@length _)) in E.
      rewrite last_items_length in E by reflexivity.
      destruct l; [reflexivity|]. cbn in E. lia.
    + intros Hne. destruct l; [congruence|].
      apply (f_equal (@length _)) in E.
      rewrite last_items_length in E by reflexivity. cbn in E. lia.
    + reflexivity.
  - eexists. split; [reflexivity|]. split; [|split].
    + split; [|discriminate]. intros ->. discriminate.
    + intros _. reflexivity.
    + reflexivity.
Qed.

Lemma context_for_question_cases_witness :
  exists text,
    MemoryContext.get_context_for_question sample_env "u1" "Quem e cliente?"
      empty_world = (Ok text, empty_world)
    /\ (@nil interaction = [] <-> text = "No previous interactions found.")
    /\ (@nil interaction <> [] ->
        Py.startswith text ("Previous interactions:" ++ newline) = true)
    /\ (forall question',
          MemoryContext.get_context_for_question sample_env "u1" question'
            empty_world = (Ok text, empty_world)).
Proof.
  apply (context_for_question_cases sample_env "u1" "Quem e cliente?"
           empty_world (MemoryManager.create_empty_memory sample_env) []);
    reflexivity.
Defined.

(** ** The generator's clean-up of the model's answer *)

Section FenceFacts.

Lemma lstrip_blank_app (pre s : string) :
  blank pre = true -> Py.lstrip (pre ++ s) = Py.lstrip s.
Proof.
  induction pre as [|c pre IH]; simpl; [reflexivity|].
  intros [Hc Hp]%andb_prop. rewrite Hc. now apply IH.
Qed.

Lemma rstrip_app_blank (s post : string) :
  blank post = true -> Py.rstrip (s ++ post) = Py.rstrip s.
Proof.
  intros Hb. induction s as [|c s IH]; simpl.
  - now apply blank_rstrip.
  - now rewrite IH.
Qed.

Lemma last_char_app (a b : string) :
  b <> "" -> last_char (a ++ b) = last_char b.
Proof.
  intros Hb. induction a as [|c a IH]; simpl; [reflexivity|].
  destruct (a ++ b) eqn:E; [|exact IH].
  destruct a; simpl in E; [contradiction | discriminate].
Qed.

Lemma startswith_append (p s : string) : Py.startswith (p ++ s) p = true.
Proof.
  unfold Py.startswith. induction p as [|c p IH]; simpl.
  - now destruct s.
  - now destruct (ascii_dec c c).
Qed.

Lemma substring_0_0 (s : string) : substring 0 0 s = "".
Proof. now destruct s. Qed.

Lemma substring_0_app (a b : string) :
  substring 0 (String.length a) (a ++ b) = a.
Proof.
  induction a as [|c a IH]; simpl; [apply substring_0_0 | now rewrite IH].
Qed.

Lemma substring_0_length (s : string) : substring 0 (String.length s) s = s.
Proof. rewrite <- (append_nil_r s) at 2. apply substring_0_app. Qed.

Lemma slice_from_append (p s : string) :
  Py.slice_from (String.length p) (p ++ s) = s.
Proof.
  unfold Py.slice_from. induction p as [|c p IH]; simpl.
  - rewrite Nat.sub_0_r. apply substring_0_length.
  - exact IH.
Qed.

Lemma slice_until_last_append (s p : string) :
  Py.slice_until_last (String.length p) (s ++ p) = s.
Proof.
  unfold Py.slice_until_last. rewrite length_append, Nat.add_sub.
  apply substring_0_app.
Qed.

Lemma endswith_append (s p : string) : Py.endswith (s ++ p) p = true.
Proof.
  induction s as [|c s IH].
  - change ("" ++ p) with p.
    destruct p; cbn [Py.endswith]; now rewrite String.eqb_refl.
  - change (String c s ++ p) with (String c (s ++ p)).
    cbn [Py.endswith]. rewrite IH. apply orb_true_r.
Qed.

Lemma strip_first (s : string) (c : ascii) :
  first_char s = Some c -> Py.isspace c = false ->
  first_char (Py.strip s) = Some c.
Proof.
  intros Hf Hc. unfold Py.strip.
  rewrite lstrip_id by now rewrite Hf.
  rewrite rstrip_first; [exact Hf|].
  destruct s as [|a s]; [discriminate|]. injection Hf as ->.
  cbn [Py.rstrip]. rewrite Hc. now destruct (Py.rstrip s).
Qed.

Lemma strip_nonspace_first (s : string) (c : ascii) :
  first_char (Py.strip s) = Some c -> Py.isspace c = false.
Proof.
  unfold Py.strip. intros H.
  rewrite rstrip_first in H.
  - now apply lstrip_first in H.
  - intros E. rewrite E in H. discriminate.
Qed.

Lemma first_char_substring (m : nat) (s : string) :
  first_char (substring 0 (S m) s) = first_char s.
Proof. now destruct s. Qed.

(** A text whose first character is neither whitespace nor an "s" in either
    case is no query for the gate. *)
Lemma validate_sql_first_char (sq : string) (c : ascii) :
  first_char sq = Some c -> Py.isspace c = false ->
  Py.lower_char c <> "s"%char ->
  Gate.validate_sql sq = false.
Proof.
  intros Hf Hc Hs. unfold Gate.validate_sql.
  destruct (Gate.dangerous_found _ _); [reflexivity|].
  assert (H : first_char (Py.strip (Py.lower sq)) = Some (Py.lower_char c)).
  { apply strip_first; [|now rewrite isspace_lower_char].
    destruct sq; [discriminate|]. now injection Hf as ->. }
  destruct (Py.strip (Py.lower sq)) as [|a r]; [discriminate|].
  injection H as ->. unfold Py.startswith. cbn [String.prefix].
  destruct (ascii_dec "s" (Py.lower_char c)) as [E|]; [|reflexivity].
  now contradiction Hs.
Qed.

End FenceFacts.

(** X18.  [generate_sql] raises exactly the exception of the chain when the
    chain raises; otherwise it returns a text without whitespace at either
    end, which a further [strip] leaves alone. *)
Theorem generate_sql_is_trimmed (env : Collaborators) (question : string) :
  match generator_chain env question with
  | Raise e => SQLGenerator.generate_sql env question = Raise e
  | Ok _ =>
      exists sq, SQLGenerator.generate_sql env question = Ok sq
                 /\ trimmed sq = true /\ Py.strip sq = sq
  end.
Proof.
  unfold SQLGenerator.generate_sql.
  destruct (generator_chain env question) as [answer|e]; [|reflexivity].
  eexists. split; [reflexivity|]. split.
  - apply strip_trimmed.
  - apply strip_idempotent.
Qed.

(** X19.  An answer that is a block fenced with "```sql" and "```", with or
    without whitespace around the block, yields the trimmed text between
    the fences. *)
Theorem generate_sql_removes_fence (env : Collaborators)
    (question pre body post : string) :
  blank pre = true ->
  blank post = true ->
  generator_chain env question
  = Ok (pre ++ ("```sql" ++ body ++ "```") ++ post) ->
  SQLGenerator.generate_sql env question = Ok (Py.strip body).
Proof.
  intros Hpre Hpost Hchain. unfold SQLGenerator.generate_sql.
  rewrite Hchain.
  assert (Hstrip : Py.strip (pre ++ ("```sql" ++ body ++ "```") ++ post)
                   = "```sql" ++ body ++ "```").
  { unfold Py.strip. rewrite (lstrip_blank_app _ _ Hpre).
    rewrite lstrip_id by reflexivity.
    rewrite (rstrip_app_blank _ _ Hpost).
    apply rstrip_id.
    rewrite <- append_assoc, last_char_app by discriminate. reflexivity. }
  rewrite Hstrip.
  change ("```sql" ++ body ++ "```") with ("```sql" ++ (body ++ "```")).
  rewrite startswith_append.
  change 6%nat with (String.length "```sql"). rewrite slice_from_append.
  rewrite endswith_append.
  change 3%nat with (String.length "```"). now rewrite slice_until_last_append.
Qed.

Lemma generate_sql_removes_fence_witness :
  SQLGenerator.generate_sql sample_env_fenced "Quanto e um?"
  = Ok (Py.strip " SELECT 1 ").
Proof.
  apply (generate_sql_removes_fence sample_env_fenced "Quanto e um?" " "
           " SELECT 1 " "  "); reflexivity.
Defined.

(** X20.  Only the opening fence "```sql" is removed.  When the trimmed
    answer does not start with it and its first character is not an "s" in
    either case -- an answer that opens with a plain "```" fence, say --
    that character survives the clean-up, or nothing does, and the gate
    rejects the generated text. *)
Theorem untagged_answer_is_rejected (env : Collaborators)
    (question answer : string) (c : ascii) :
  generator_chain env question = Ok answer ->
  first_char (Py.strip answer) = Some c ->
  Py.lower_char c <> "s"%char ->
  Py.startswith (Py.strip answer) "```sql" = false ->
  exists sq,
    SQLGenerator.generate_sql env question = Ok sq
    /\ Gate.validate_sql sq = false.
Proof.
  intros Hchain Hf Hs Htag. unfold SQLGenerator.generate_sql.
  rewrite Hchain, Htag. eexists. split; [reflexivity|].
  pose proof (strip_nonspace_first _ _ Hf) as Hc.
  destruct (Py.endswith (Py.strip answer) "```").
  - unfold Py.slice_until_last.
    destruct (String.length (Py.strip answer) - 3)%nat as [|m].
    + now rewrite substring_0_0.
    + apply (validate_sql_first_char _ c); [|exact Hc|exact Hs].
      apply strip_first; [|exact Hc]. now rewrite first_char_substring.
  - apply (validate_sql_first_char _ c); [|exact Hc|exact Hs].
    now apply strip_first.
Qed.

Lemma untagged_answer_is_rejected_witness :
  exists sq,
    SQLGenerator.generate_sql sample_env_plain_fence "Quanto e um?" = Ok sq
    /\ Gate.validate_sql sq = false.
Proof.
  apply (untagged_answer_is_rejected sample_env_plain_fence "Quanto e um?"
           ("```" ++ newline ++ "SELECT 1" ++ newline ++ "```") "`"%char);
    [reflexivity | reflexivity | discriminate | reflexivity].
Defined.

(** ** The context object *)

(** X21.  A metadata value that was set is the value read back, under any
    default; setting a key changes no other key and no other field of the
    context; and a context that is new has no metadata, so that every key
    reads as the default. *)
Theorem metadata_round_trip (key key' : string) (value default : pyval)
    (c : Context) (uid q : string) :
  get_metadata key default (update_metadata key value c) = value
  /\ (key' <> key ->
      get_metadata key' default (update_metadata key value c)
      = get_metadata key' default c)
  /\ get_metadata key default (new_context uid q) = default
  /\ errors (update_metadata key value c) = errors c
  /\ conversation_history (update_metadata key value c)
     = conversation_history c
  /\ query_results (update_metadata key value c) = query_results c.
Proof.
  unfold get_metadata, update_metadata. cbn [metadata new_context].
  rewrite lookup_insert_eq, lookup_empty. repeat split.
  intros Hne. now rewrite lookup_insert_ne.
Qed.

(** X22.  The error added last is the last error: after [add_error] the
    context has errors and [get_last_error] returns the entry just added,
    with the earlier errors kept in front of it; and [get_last_error]
    returns nothing exactly when [has_errors] is false. *)
Theorem add_error_is_last_error (agent_name error_message error_type : string)
    (c : Context) :
  has_errors (add_error agent_name error_message error_type c) = true
  /\ get_last_error (add_error agent_name error_message error_type c)
     = Some (MkError agent_name error_message error_type)
  /\ errors (add_error agent_name error_message error_type c)
     = (errors c ++ [MkError agent_name error_message error_type])%list
  /\ (get_last_error c = None <-> has_errors c = false).
Proof.
  unfold has_errors, get_last_error, add_error. cbn [errors].
  rewrite last_snoc, length_app. cbn [length]. repeat split.
  - apply Nat.ltb_lt. lia.
  - intros H. apply last_None in H. now rewrite H.
  - intros H. destruct (errors c); [reflexivity | discriminate].
Qed.

(** ** The stages, one by one *)

Section StageFacts3.
Variable env : Collaborators.

(** A success reported by the executor is a query that passed the gate. *)
Lemma executor_success_validated (q : string) (w w' : World)
    (r : gmap string pyval) (v : pyval) :
  SQLExecutor.execute_sql env q w = (Ok r, w') ->
  r !! "success" = Some v -> truthy v = true ->
  Gate.validate_sql q = true /\ v = VBool true.
Proof.
  intros Hx Hs Ht. split.
  - destruct (Gate.validate_sql q) eqn:Hv; [reflexivity|].
    unfold SQLExecutor.execute_sql, SQLExecutor.validate_sql in Hx.
    rewrite Hv in Hx. injection Hx as <- <-.
    destruct (failure_result_fields "SQL query failed validation") as [H _].
    rewrite H in Hs. injection Hs as <-. discriminate.
  - apply execute_sql_returns in Hx as [[msg ->] | (data & cols & ->)].
    + destruct (failure_result_fields msg) as [H _].
      rewrite H in Hs. injection Hs as <-. discriminate.
    + destruct (success_result_fields data cols (length data)) as [H _].
      rewrite H in Hs. now injection Hs as <-.
Qed.

(** The formatter never raises on what the executor returned. *)
Lemma format_response_total (question q sq : string) (w w' : World)
    (r : gmap string pyval) :
  SQLExecutor.execute_sql env q w = (Ok r, w') ->
  exists text, ResponseFormatter.format_response env question sq r = Ok text.
Proof.
  intros H. apply execute_sql_returns in H as [[msg ->] | (data & cols & ->)];
    unfold ResponseFormatter.format_response, ResponseFormatter.results_text,
      ResponseFormatter.fallback, getitem.
  - destruct (failure_result_fields msg) as (Hs & He & _).
    rewrite Hs, He. cbn [truthy ResponseFormatter.py_str].
    destruct (formatter_chain env question sq _); eexists; reflexivity.
  - destruct (success_result_fields data cols (length data))
      as (Hs & He & Hd & _ & Hn).
    rewrite Hs, He, Hn, Hd. cbn [truthy]. rewrite of_nat_eq_zero.
    destruct data as [|x data]; cbn [length ResponseFormatter.iterate];
      destruct (formatter_chain env question sq _); eexists; reflexivity.
Qed.

End StageFacts3.

(** X23.  With a history that can be read, [load_context] adds no error and
    writes nothing; it puts the latest records, five at most, into the
    conversation history and notes in the metadata that the context was
    loaded and how many records it holds. *)
Theorem load_context_records_history (env : Collaborators) (c : Context)
    (w : World) (doc : memory_doc) (l : list interaction) :
  MemoryManager.load_memory env (user_id c) w = (Ok doc, w) ->
  conversations doc = Some l ->
  exists c',
    Flow.load_context env c w = (c', w)
    /\ conversation_history c' = last_items 5 l
    /\ (length (conversation_history c') <= 5)%nat
    /\ get_metadata "context_loaded" VNone c' = VBool true
    /\ get_metadata "history_length" VNone c'
       = VInt (Z.of_nat (Nat.min 5 (length l)))
    /\ errors c' = errors c.
Proof.
  intros Hload Hl. unfold Flow.load_context.
  rewrite (get_recent_interactions_ok env (user_id c) 5 w doc l Hload Hl).
  eexists. split; [reflexivity|].
  pose proof (last_items_length 5 l ltac:(reflexivity)) as Hlen.
  change (Z.to_nat 5) with 5%nat in Hlen.
  split; [reflexivity|]. split; [cbn [conversation_history
    update_metadata set_conversation_history]; lia|].
  unfold get_metadata, update_metadata, set_conversation_history.
  cbn [metadata errors].
  rewrite lookup_insert_ne by discriminate.
  rewrite !lookup_insert_eq, Hlen. repeat split.
Qed.

Lemma load_context_records_history_witness :
  exists c',
    Flow.load_context sample_env (new_context "u1" "Quem e cliente?")
      empty_world = (c', empty_world)
    /\ conversation_history c' = last_items 5 []
    /\ (length (conversation_history c') <= 5)%nat
    /\ get_metadata "context_loaded" VNone c' = VBool true
    /\ get_metadata "history_length" VNone c'
       = VInt (Z.of_nat (Nat.min 5 (length (@nil interaction))))
    /\ errors c' = errors (new_context "u1" "Quem e cliente?").
Proof.
  apply (load_context_records_history sample_env
           (new_context "u1" "Quem e cliente?") empty_world
           (MemoryManager.create_empty_memory sample_env) []); reflexivity.
Defined.

(** X24.  The stage [execute_sql] either reports a success, setting the
    validation flag without adding an error, and then the query has passed
    the gate and the results say "success"; or it appends exactly one
    error, tagged "execute_sql", and does not raise the flag.  In both
    cases it changes neither the query nor the response. *)
Theorem execute_sql_stage_outcomes (env : Collaborators) (c : Context)
    (w : World) :
  exists c' w',
    Flow.execute_sql env c w = (c', w')
    /\ sql_query c' = sql_query c /\ response c' = response c
    /\ ((is_query_validated c' = true
         /\ errors c' = errors c
         /\ Gate.validate_sql (sql_query c) = true
         /\ query_results c' !! "success" = Some (VBool true))
        \/ (exists err,
              errors c' = (errors c ++ [err])%list
              /\ agent err = "execute_sql"
              /\ (is_query_validated c' = true ->
                  is_query_validated c = true))).
Proof.
  unfold Flow.execute_sql, Flow.execute_sql_failed.
  destruct (SQLExecutor.execute_sql env (sql_query c) w) as [[r|e] w1] eqn:Hx.
  - unfold getitem. destruct (r !! "success") as [v|] eqn:Hs.
    + destruct (truthy v) eqn:Ht.
      * destruct (executor_success_validated env _ _ _ _ _ Hx Hs Ht)
          as [Hv ->].
        eexists _, _. split; [reflexivity|]. split; [reflexivity|].
        split; [reflexivity|]. left. now repeat split.
      * destruct (r !! "error") as [err|];
          (eexists _, _; split; [reflexivity|]; split; [reflexivity|];
           split; [reflexivity|]; right; eexists; split; [reflexivity|];
           split; [reflexivity|]; cbn; congruence).
    + eexists _, _. split; [reflexivity|]. split; [reflexivity|].
      split; [reflexivity|]. right. eexists. split; [reflexivity|].
      split; [reflexivity|]. cbn. congruence.
  - eexists _, _. split; [reflexivity|]. split; [reflexivity|].
    split; [reflexivity|]. right. eexists. split; [reflexivity|].
    split; [reflexivity|]. cbn. congruence.
Qed.

(** X25.  On a context without errors whose results are what the executor
    returned, the stage [format_response] adds no error, even when the
    formatter chain raises: the response is the chain's text or the
    fallback text, and nothing else of the context changes. *)
Theorem format_response_stage_adds_no_error (env : Collaborators)
    (c : Context) (w w0 w1 : World) (q : string) :
  has_errors c = false ->
  SQLExecutor.execute_sql env q w0 = (Ok (query_results c), w1) ->
  exists text,
    ResponseFormatter.format_response env (question c) (sql_query c)
      (query_results c) = Ok text
    /\ Flow.format_response env c w = (set_response text c, w)
    /\ has_errors (set_response text c) = false.
Proof.
  intros He Hx.
  destruct (format_response_total env (question c) q (sql_query c) w0 w1
              (query_results c) Hx) as [text Ht].
  exists text. split; [exact Ht|].
  unfold Flow.format_response. rewrite He, Ht. now split.
Qed.

Lemma format_response_stage_adds_no_error_witness :
  exists text,
    ResponseFormatter.format_response sample_env_formatter_down
      "Quem e cliente?" "drop table clientes"
      (SQLExecutor.failure_result "SQL query failed validation") = Ok text
    /\ Flow.format_response sample_env_formatter_down
         (set_query_results
            (SQLExecutor.failure_result "SQL query failed validation")
            (set_sql_query "drop table clientes"
               (new_context "u1" "Quem e cliente?")))
         empty_world
       = (set_response text
            (set_query_results
               (SQLExecutor.failure_result "SQL query failed validation")
               (set_sql_query "drop table clientes"
                  (new_context "u1" "Quem e cliente?"))),
          empty_world)
    /\ has_errors
         (set_response text
            (set_query_results
               (SQLExecutor.failure_result "SQL query failed validation")
               (set_sql_query "drop table clientes"
                  (new_context "u1" "Quem e cliente?")))) = false.
Proof.
  apply (format_response_stage_adds_no_error sample_env_formatter_down
           (set_query_results
              (SQLExecutor.failure_result "SQL query failed validation")
              (set_sql_query "drop table clientes"
                 (new_context "u1" "Quem e cliente?")))
           empty_world empty_world empty_world "drop table clientes");
    reflexivity.
Defined.

(** ** What every stage keeps *)

Section StageInvariants.
Variable env : Collaborators.

Lemma carries_on_refl (c : Context) : carries_on c c.
Proof. repeat split. exists []. now rewrite app_nil_r. Qed.

Lemma carries_on_same (c c' : Context) :
  user_id c' = user_id c -> question c' = question c ->
  errors c' = errors c -> carries_on c c'.
Proof.
  intros Hu Hq He. repeat split; try assumption.
  exists []. now rewrite app_nil_r.
Qed.

Lemma carries_on_trans (a b c : Context) :
  carries_on a b -> carries_on b c -> carries_on a c.
Proof.
  intros (Hu & Hq & l & He) (Hu' & Hq' & l' & He').
  split; [congruence|]. split; [congruence|].
  exists (l ++ l')%list. now rewrite He', He, app_assoc.
Qed.

Lemma load_context_carries_on (c : Context) (w : World) :
  carries_on c (Flow.load_context env c w).1.
Proof.
  destruct (Flow.load_context env c w) as [c' w'] eqn:E.
  apply load_context_fields in E as (Hu & Hq & _ & _ & _ & _ & He).
  now repeat split.
Qed.

Lemma generate_sql_carries_on (c : Context) (w : World) :
  carries_on c (Flow.generate_sql env c w).1.
Proof.
  unfold Flow.generate_sql.
  destruct (SQLGenerator.generate_sql env (question c)); cbn [fst].
  - now apply carries_on_same.
  - repeat split. now eexists.
Qed.

Lemma execute_sql_carries_on (c : Context) (w : World) :
  carries_on c (Flow.execute_sql env c w).1.
Proof.
  destruct (Flow.execute_sql env c w) as [c' w'] eqn:E.
  apply execute_sql_fields in E as (Hu & Hq & _ & _ & _ & He).
  now repeat split.
Qed.

Lemma format_response_carries_on (c : Context) (w : World) :
  carries_on c (Flow.format_response env c w).1.
Proof.
  unfold Flow.format_response. destruct (has_errors c); cbn [fst].
  - now apply carries_on_same.
  - destruct (ResponseFormatter.format_response _ _ _ _); cbn [fst].
    + now apply carries_on_same.
    + repeat split. now eexists.
Qed.

Lemma save_memory_carries_on (c : Context) (w : World) :
  carries_on c (Flow.save_memory env c w).1.
Proof.
  destruct (Flow.save_memory env c w) as [c' w'] eqn:E.
  apply save_memory_cases in E as [-> | (msg & -> & _)]; cbn [fst].
  - apply carries_on_refl.
  - repeat split. now eexists.
Qed.

(** Stages that carry on make a sequence that carries on, at every stage. *)
Lemma run_sequence_carries_on (stages : list (string * Stage)) :
  Forall (fun s => forall c w, carries_on c (s.2 c w).1) stages ->
  forall c w,
    carries_on c (run_sequence stages c w).1.1
    /\ Forall (fun v => carries_on c v.2) (run_sequence stages c w).2.
Proof.
  induction 1 as [|[n f] rest Hf Hrest IH]; intros c w; cbn [run_sequence].
  - split; [apply carries_on_refl | constructor].
  - cbn [snd] in Hf. specialize (Hf c w).
    destruct (f c w) as [c1 w1]. cbn [fst] in Hf.
    specialize (IH c1 w1).
    destruct (run_sequence rest c1 w1) as [[c2 w2] visited].
    cbn [fst snd] in *. destruct IH as [IH1 IH2]. split.
    + now apply (carries_on_trans c c1 c2).
    + constructor; [apply carries_on_refl|].
      eapply Forall_impl; [exact IH2|].
      intros v Hv. now apply (carries_on_trans c c1).
Qed.

Lemma nodes_carry_on :
  Forall (fun s => forall c w, carries_on c (s.2 c w).1)
         (LangGraph.nodes (SQLAgentGraph.graph env)).
Proof.
  repeat constructor; cbn [snd]; intros;
    first [ apply load_context_carries_on | apply generate_sql_carries_on
          | apply execute_sql_carries_on | apply format_response_carries_on
          | apply save_memory_carries_on ].
Qed.

(** What each stage does to the world. *)
Lemma load_context_world (c : Context) (w : World) :
  (Flow.load_context env c w).2 = w.
Proof.
  unfold Flow.load_context.
  destruct (MemoryManager.get_recent_interactions _ _ _ _) as [[l|e] w1] eqn:E;
    now apply get_recent_interactions_reads in E.
Qed.

Lemma generate_sql_world (c : Context) (w : World) :
  (Flow.generate_sql env c w).2 = w.
Proof.
  unfold Flow.generate_sql. now destruct (SQLGenerator.generate_sql _ _).
Qed.

Lemma format_response_world (c : Context) (w : World) :
  (Flow.format_response env c w).2 = w.
Proof.
  destruct (Flow.format_response env c w) as [c' w'] eqn:E.
  now apply format_response_fields in E as [-> _].
Qed.

(** The executor opens no session, or one that it uses for the query, which
    the gate has accepted, and closes. *)
Lemma executor_events (q : string) (w : World) :
  exists events,
    fs (SQLExecutor.execute_sql env q w).2 = fs w
    /\ db_log (SQLExecutor.execute_sql env q w).2 = (db_log w ++ events)%list
    /\ (events = []
        \/ (Gate.validate_sql q = true
            /\ events = [SessionOpened; Executed q; SessionClosed])).
Proof.
  unfold SQLExecutor.execute_sql, SQLExecutor.get_db_session,
    SQLExecutor.run_query, SQLExecutor.log_db, SQLExecutor.validate_sql,
    SQLExecutor.session_close, finally, bind, ret, raise.
  destruct (Gate.validate_sql q); cbn [negb].
  - destruct (session_failure env) as [e|].
    + exists []. rewrite app_nil_r. repeat split. now left.
    + exists [SessionOpened; Executed q; SessionClosed].
      destruct (db_execute env q) as [keys rows|e];
        [destruct (SQLExecutor.df_empty rows);
         [|destruct (df_records env keys rows)] |];
        cbn; rewrite <- !app_assoc; repeat split; now right.
  - exists []. rewrite app_nil_r. repeat split. now left.
Qed.

Lemma execute_sql_world (c : Context) (w : World) :
  (Flow.execute_sql env c w).2
  = (SQLExecutor.execute_sql env (sql_query c) w).2.
Proof.
  unfold Flow.execute_sql.
  destruct (SQLExecutor.execute_sql env (sql_query c) w) as [[r|e] w1];
    [|reflexivity].
  destruct (getitem r "success") as [v|]; [|reflexivity].
  destruct (truthy v); [reflexivity|].
  now destruct (getitem r "error").
Qed.

Lemma save_memory_world (c : Context) (w : World) :
  db_log (Flow.save_memory env c w).2 = db_log w
  /\ forall p, p <> MemoryManager.get_user_memory_path env (user_id c) ->
               fs (Flow.save_memory env c w).2 !! p = fs w !! p.
Proof.
  unfold Flow.save_memory.
  destruct (MemoryManager.add_interaction _ _ _ _ _ _ _) as [[[]|e] w1] eqn:E;
    apply add_interaction_frame in E as (Hd & Hf & _); now split.
Qed.

End StageInvariants.

(** X26.  No stage loses anything of what it was given: each of the five
    stages that [build_graph] registers leaves the user and the question
    as they were and the errors as they were with, possibly, more after
    them.  So does every sequence of these stages, run one after the
    other in any order and number, at each of its stages and at its
    end. *)
Theorem stages_carry_on (env : Collaborators) :
  Forall (fun s => forall c w, carries_on c (s.2 c w).1)
         (LangGraph.nodes (SQLAgentGraph.graph env))
  /\ forall (stages : list (string * Stage)) (c : Context) (w : World),
       incl stages (LangGraph.nodes (SQLAgentGraph.graph env)) ->
       carries_on c (run_sequence stages c w).1.1
       /\ Forall (fun v => carries_on c v.2) (run_sequence stages c w).2.
Proof.
  split; [apply nodes_carry_on|].
  intros stages c w Hincl. apply run_sequence_carries_on.
  apply Forall_forall. intros s Hs.
  pose proof (nodes_carry_on env) as H.
  rewrite Forall_forall in H. apply H.
  apply list_elem_of_In, Hincl, list_elem_of_In, Hs.
Qed.

(** X27.  What the stages do to the world.  [load_context], [generate_sql]
    and [format_response] leave it as it was.  [execute_sql] leaves the
    files alone and asks the store nothing at all, or opens one session,
    uses it for the query of the context, and closes it; every query that
    reaches the store has been accepted by the gate.  [save_memory] leaves
    the store alone and, of the files, all but the history file of the
    user of the context. *)
Theorem stage_world_discipline (env : Collaborators) (c : Context)
    (w : World) :
  (Flow.load_context env c w).2 = w
  /\ (Flow.generate_sql env c w).2 = w
  /\ (Flow.format_response env c w).2 = w
  /\ (exists events,
        fs (Flow.execute_sql env c w).2 = fs w
        /\ db_log (Flow.execute_sql env c w).2 = (db_log w ++ events)%list
        /\ forallb allowed_event events = true
        /\ (events = []
            \/ events = [SessionOpened; Executed (sql_query c);
                         SessionClosed]))
  /\ db_log (Flow.save_memory env c w).2 = db_log w
  /\ (forall p, p <> MemoryManager.get_user_memory_path env (user_id c) ->
                fs (Flow.save_memory env c w).2 !! p = fs w !! p).
Proof.
  split; [apply load_context_world|].
  split; [apply generate_sql_world|].
  split; [apply format_response_world|].
  split; [|apply save_memory_world].
  rewrite execute_sql_world.
  destruct (executor_events env (sql_query c) w)
    as (events & Hf & Hd & [-> | [Hv ->]]).
  - exists []. repeat split; auto.
  - eexists. split; [exact Hf|]. split; [exact Hd|]. split.
    + cbn. now rewrite Hv.
    + now right.
Qed.

(** ** Retrieval *)

(** X30.  Without a vector store, and when the search of the store raises,
    [retrieve_relevant_documents] returns no document instead of raising,
    and the context text made of its result is then empty; the context
    text is empty only when there is no document. *)
Theorem retrieval_failure_gives_empty_context
    (vector_store : option (string -> nat -> res (list string)))
    (question : string) (k : nat) (docs : list string) :
  (vector_store = None
   \/ exists similarity_search e,
        vector_store = Some similarity_search
        /\ similarity_search question k = Raise e) ->
  RAGRetriever.retrieve_relevant_documents vector_store question k = []
  /\ RAGRetriever.get_context_from_documents
       (RAGRetriever.retrieve_relevant_documents vector_store question k)
     = ""
  /\ (RAGRetriever.get_context_from_documents docs = "" <-> docs = []).
Proof.
  intros H.
  assert (Hr : RAGRetriever.retrieve_relevant_documents vector_store
                 question k = []).
  { unfold RAGRetriever.retrieve_relevant_documents.
    destruct H as [-> | (search & e & -> & ->)]; reflexivity. }
  rewrite Hr. split; [reflexivity|]. split; [reflexivity|].
  split.
  - destruct docs; [reflexivity | discriminate].
  - now intros ->.
Qed.

Lemma retrieval_failure_gives_empty_context_witness :
  RAGRetriever.retrieve_relevant_documents
    (Some (fun _ _ => Raise (Exn OtherError "index not built")))
    "Quem e cliente?" 3 = []
  /\ RAGRetriever.get_context_from_documents
       (RAGRetriever.retrieve_relevant_documents
          (Some (fun _ _ => Raise (Exn OtherError "index not built")))
          "Quem e cliente?" 3)
     = ""
  /\ (RAGRetriever.get_context_from_documents ["clientes(nome, saldo)"] = ""
      <-> ["clientes(nome, saldo)"] = []).
Proof.
  apply (retrieval_failure_gives_empty_context
           (Some (fun _ _ => Raise (Exn OtherError "index not built")))
           "Quem e cliente?" 3 ["clientes(nome, saldo)"]).
  right. eexists _, _. split; reflexivity.
Defined.
